(** * bedzones: the BedDualZone widget and its demo shell

    A shallow embedding of the widget, [components/BedDualZone.tsx] (its
    text follows the introduction in README.md, and the line numbers given
    for it are those of README.md), and of the demo that owns the state,
    [components/BedDemo.tsx], followed by the properties the specification
    states about them.

    Numbers.  A JavaScript [number] is modelled as an exact rational in
    canonical form ([Qc]), so that equal numbers are equal terms.  Rounding
    error, NaN and the infinities of IEEE doubles are outside the model.

    Strings.  [mode] and [page] are kept as the strings the running program
    holds: the union types of the source are erased at run time, and which
    strings can occur there is something to prove, not to assume. *)

From Stdlib Require Import ZArith QArith Qcanon Qround Lqa Lia.
From Stdlib Require Import String Ascii List Bool.
From Stdlib Require Import DecimalString.
Import ListNotations.

Local Open Scope string_scope.
Local Open Scope Qc_scope.

(** ** Numbers *)

Module Num.

Definition number : Type := Qc.

Definition ofZ (z : Z) : number := Q2Qc (inject_Z z).

(** Decimal literals of the source that are not integers. *)
Definition half : number := Q2Qc (1 # 2).          (* 0.5  *)
Definition n43_5 : number := Q2Qc (87 # 2).         (* 43.5 *)

(** [a > b], [a < b] and [a === b] as the booleans JavaScript computes. *)
Definition gt (a b : number) : bool :=
  match b ?= a with Lt => true | _ => false end.
Definition lt (a b : number) : bool :=
  match a ?= b with Lt => true | _ => false end.
Definition eqb (a b : number) : bool :=
  match a ?= b with Eq => true | _ => false end.

(** [Math.min] and [Math.max]. *)
Definition min (a b : number) : number := if lt b a then b else a.
Definition max (a b : number) : number := if lt a b then b else a.

(** [Math.round]: the nearest integer, a tie going up. *)
Definition round (x : number) : number :=
  ofZ (Qfloor ((x : Q) + (1 # 2))%Q).

End Num.

Abbreviation number := Num.number.

(** ** Unit conversion (BedDemo.tsx, lines 52-53) *)

Definition fToC (f : number) : number :=
  ((f - Num.ofZ 32) * Num.ofZ 5) / Num.ofZ 9.

Definition cToF (c : number) : number :=
  (c * Num.ofZ 9) / Num.ofZ 5 + Num.ofZ 32.

(** ** Data model (README.md, lines 33-52) *)

(** [type Side = 'left' | 'right'] *)
Inductive Side : Type := Left | Right.

(** The display unit, ['F' | 'C']. *)
Inductive Unit : Type := F | C.

Definition Side_eqb (a b : Side) : bool :=
  match a, b with
  | Left, Left | Right, Right => true
  | _, _ => false
  end.

Definition other (s : Side) : Side :=
  match s with Left => Right | Right => Left end.

Definition Unit_str (u : Unit) : string :=
  match u with F => "F" | C => "C" end.

(** [schedule?: { running: boolean; nextStart?: string }] *)
Record Schedule : Type := mkSchedule {
  running : bool;
  nextStart : option string
}.

(** [interface ZoneState].  [mode] holds the run-time string. *)
Record ZoneState : Type := mkZone {
  mode : string;
  currentTemp : number;
  targetTemp : option number;
  schedule : option Schedule
}.

(** The three values of [type Mode]. *)
Definition Modes : list string := ["off"; "cool"; "heat"].

Definition valid_mode (m : string) : Prop := In m Modes.

(** [a ?? b] *)
Definition nullish {A : Type} (a : option A) (b : A) : A :=
  match a with Some x => x | None => b end.

(** ** The demo shell: state (BedDemo.tsx, lines 28-47) *)

(** [Record<Side, ZoneState>] *)
Record Zones : Type := mkZones {
  z_left : ZoneState;
  z_right : ZoneState
}.

Record SideNames : Type := mkNames {
  n_left : string;
  n_right : string
}.

(** The five [useState] cells of [BedDemo]. *)
Record DemoState : Type := mkDemo {
  st_zones : Zones;
  st_editing : Side;
  st_unit : Unit;
  st_page : string;
  st_sideNames : SideNames
}.

Definition Pages : list string := ["home"; "settings"; "schedule"].

(** [z[side]] *)
Definition zone_at (z : Zones) (s : Side) : ZoneState :=
  match s with Left => z_left z | Right => z_right z end.

(** [{ ...z, [side]: v }] *)
Definition zone_put (z : Zones) (s : Side) (v : ZoneState) : Zones :=
  match s with
  | Left => mkZones v (z_right z)
  | Right => mkZones (z_left z) v
  end.

Definition init : DemoState :=
  {| st_zones :=
       {| z_left := mkZone "cool" (Num.ofZ 72) (Some (Num.ofZ 68))
                      (Some (mkSchedule false None));
          z_right := mkZone "off" (Num.ofZ 70) None
                      (Some (mkSchedule false None)) |};
     st_editing := Left;
     st_unit := F;
     st_page := "home";
     st_sideNames := mkNames "Left" "Right" |}.

(** The setters of the five cells. *)
Definition setZones (f : Zones -> Zones) (st : DemoState) : DemoState :=
  mkDemo (f (st_zones st)) (st_editing st) (st_unit st) (st_page st)
         (st_sideNames st).
Definition setEditing (s : Side) (st : DemoState) : DemoState :=
  mkDemo (st_zones st) s (st_unit st) (st_page st) (st_sideNames st).
Definition setUnit (u : Unit) (st : DemoState) : DemoState :=
  mkDemo (st_zones st) (st_editing st) u (st_page st) (st_sideNames st).
Definition setPage (p : string) (st : DemoState) : DemoState :=
  mkDemo (st_zones st) (st_editing st) (st_unit st) p (st_sideNames st).
Definition setSideNames (f : SideNames -> SideNames) (st : DemoState)
  : DemoState :=
  mkDemo (st_zones st) (st_editing st) (st_unit st) (st_page st)
         (f (st_sideNames st)).

(** ** The demo shell: operations (BedDemo.tsx, lines 49-96) *)

Definition updateZone (side : Side) (updater : ZoneState -> ZoneState)
  : DemoState -> DemoState :=
  setZones (fun z => zone_put z side (updater (zone_at z side))).

Definition toUnit (u : Unit) (t : number) : number :=
  match u with
  | C => Num.round (fToC t * Num.ofZ 10) / Num.ofZ 10
  | F => Num.round t
  end.

Definition fromUnit (u : Unit) (t : number) : number :=
  match u with C => cToF t | F => t end.

Record TempCfg : Type := mkCfg {
  cfg_min : number;
  cfg_max : number;
  cfg_mid : number;
  cfg_step : number
}.

Definition tempCfg (u : Unit) : TempCfg :=
  match u with
  | C => mkCfg (Num.ofZ 13) Num.n43_5 (Num.ofZ 28) Num.half
  | F => mkCfg (Num.ofZ 55) (Num.ofZ 110) (Num.ofZ 82) (Num.ofZ 1)
  end.

(** The updater [changeTemp] hands to [updateZone]; [u] is the unit of the
    render the handler closes over. *)
Definition changeTempZone (u : Unit) (delta : number) (z : ZoneState)
  : ZoneState :=
  let cfg := tempCfg u in
  let currentTarget := toUnit u (nullish (targetTemp z) (fromUnit u (cfg_mid cfg))) in
  let next := currentTarget + delta in
  let next := Num.min (cfg_max cfg) (Num.max (cfg_min cfg) next) in
  let nextF := fromUnit u next in
  let mode' :=
    if mode z =? "off" then mode z
    else if Num.gt nextF (currentTemp z) then "heat"
    else if Num.lt nextF (currentTemp z) then "cool"
    else mode z in
  mkZone mode' (currentTemp z) (Some nextF) (schedule z).

Definition changeTemp (side : Side) (delta : number) (st : DemoState)
  : DemoState :=
  updateZone side (changeTempZone (st_unit st) delta) st.

Definition togglePowerZone (z : ZoneState) : ZoneState :=
  if mode z =? "off" then
    let target := nullish (targetTemp z) (currentTemp z) in
    let mode' :=
      if Num.gt target (currentTemp z) then "heat"
      else if Num.lt target (currentTemp z) then "cool"
      else "heat" in
    mkZone mode' (currentTemp z) (Some target) (schedule z)
  else mkZone "off" (currentTemp z) (targetTemp z) (schedule z).

Definition togglePower (side : Side) : DemoState -> DemoState :=
  updateZone side togglePowerZone.

(** [{ ...z.schedule, running }]: spreading an absent schedule adds nothing. *)
Definition toggleScheduleZone (running' : bool) (z : ZoneState) : ZoneState :=
  mkZone (mode z) (currentTemp z) (targetTemp z)
    (Some (mkSchedule running'
             (match schedule z with
              | Some s => nextStart s
              | None => None
              end))).

Definition toggleSchedule (side : Side) (running' : bool)
  : DemoState -> DemoState :=
  updateZone side (toggleScheduleZone running').

(** [{ running: z.schedule?.running ?? false, nextStart }] *)
Definition setScheduleStartZone (nextStart' : string) (z : ZoneState)
  : ZoneState :=
  mkZone (mode z) (currentTemp z) (targetTemp z)
    (Some (mkSchedule
             (match schedule z with
              | Some s => running s
              | None => false
              end)
             (Some nextStart'))).

Definition setScheduleStart (side : Side) (nextStart' : string)
  : DemoState -> DemoState :=
  updateZone side (setScheduleStartZone nextStart').

(** The number shown between the minus and plus buttons (line 134). *)
Definition shownTarget (u : Unit) (z : ZoneState) : number :=
  toUnit u (nullish (targetTemp z) (fromUnit u (cfg_mid (tempCfg u)))).

(** ** The widget (README.md, lines 59-366) *)

(** The entries of [theme.palette] the widget reads. *)
Record Theme : Type := mkTheme {
  grey_200 : string;
  grey_400 : string;
  grey_700 : string;
  grey_800 : string;
  secondary_main : string;
  info_main : string;
  error_main : string;
  background_paper : string;
  background_default : string
}.

(** [sideNames?: { left?: string; right?: string }] *)
Record NameProps : Type := mkNameProps {
  np_left : option string;
  np_right : option string
}.

(** [interface BedDualZoneProps]; an optional property is an [option], and
    [onSideClick] returns whatever the parent makes of the call. *)
Record BedDualZoneProps (A : Type) : Type := mkProps {
  p_left : ZoneState;
  p_right : ZoneState;
  p_editingSide : option Side;
  p_onSideClick : option (Side -> A);
  p_width : option number;
  p_sideNames : option NameProps;
  p_unit : option Unit;
  p_sx : list (string * string)
}.
Arguments mkProps {A}.
Arguments p_left {A}.
Arguments p_right {A}.
Arguments p_editingSide {A}.
Arguments p_onSideClick {A}.
Arguments p_width {A}.
Arguments p_sideNames {A}.
Arguments p_unit {A}.
Arguments p_sx {A}.

(** What [tintBackground] and the [off] entry of [modeStyles] hold. *)
Record ModeStyle : Type := mkModeStyle {
  ms_background : string;
  ms_borderColor : string;
  ms_dot : string
}.

Record EditingSx : Type := mkEditingSx {
  es_boxShadow : string;
  es_afterShadow : string;
  es_zIndex : Z
}.

(** One [ButtonBase] of [zones.map]. *)
Record ZoneView (A : Type) : Type := mkZoneView {
  v_key : Side;
  v_onClick : option A;
  v_ariaLabel : string;
  v_pressed : bool;
  v_title : string;
  v_borderRadius : string;
  v_modeStyle : option (string * ModeStyle);
  v_editingSx : option EditingSx;
  v_opacity : number;
  v_name : string;
  v_temp : string;
  v_target : option string;
  v_schedule : option string
}.
Arguments mkZoneView {A}.
Arguments v_key {A}.
Arguments v_onClick {A}.
Arguments v_ariaLabel {A}.
Arguments v_pressed {A}.
Arguments v_title {A}.
Arguments v_borderRadius {A}.
Arguments v_modeStyle {A}.
Arguments v_editingSx {A}.
Arguments v_opacity {A}.
Arguments v_name {A}.
Arguments v_temp {A}.
Arguments v_target {A}.
Arguments v_schedule {A}.

(** The root [Box] and the two zone buttons inside it. *)
Record View (A : Type) : Type := mkView {
  r_maxWidth : number;
  r_sx : list (string * string);
  r_zones : list (ZoneView A)
}.
Arguments mkView {A}.
Arguments r_maxWidth {A}.
Arguments r_sx {A}.
Arguments r_zones {A}.

(** The degree sign, as its two UTF-8 bytes. *)
Definition degree : string :=
  String (ascii_of_nat 194) (String (ascii_of_nat 176) "").

(** The digits an integer-valued number prints as (every number the widget
    prints comes out of [Math.round]). *)
Definition numStr (x : number) : string :=
  NilZero.string_of_int (Z.to_int (Qfloor x)).

(** A string in a condition: the empty string counts as false. *)
Definition truthy (s : string) : bool :=
  match s with EmptyString => false | String _ _ => true end.

(** [o[k]] on an object literal written as its list of entries. *)
Fixpoint entry {V : Type} (k : string) (o : list (string * V))
  : option (string * V) :=
  match o with
  | [] => None
  | (k', v) :: rest => if k' =? k then Some (k', v) else entry k rest
  end.

(** [formatTemp] (README.md, lines 163-164). *)
Definition formatTemp (u : Unit) (t : number) : number :=
  match u with
  | C => Num.round (((t - Num.ofZ 32) * Num.ofZ 5) / Num.ofZ 9)
  | F => Num.round t
  end.

Definition unitLabel (u : Unit) : string := degree ++ Unit_str u.

(** [scheduleLabel] (README.md, lines 235-239). *)
Definition scheduleLabel (state : ZoneState) : option string :=
  match schedule state with
  | None => None
  | Some s =>
      if running s then Some "Schedule running"
      else match nextStart s with
           | Some t => if truthy t then Some ("Starts at " ++ t) else None
           | None => None
           end
  end.

(** The line under the temperature (README.md, lines 304-315). *)
Definition targetLabel (u : Unit) (state : ZoneState) : option string :=
  if negb (mode state =? "off") then
    match targetTemp state with
    | Some t =>
        Some (if Num.eqb (currentTemp state) t
              then "Maintaining " ++ numStr (formatTemp u t) ++ unitLabel u
              else (if mode state =? "cool" then "Cooling to" else "Heating to")
                     ++ " " ++ numStr (formatTemp u t) ++ unitLabel u)
    | None => None
    end
  else None.

Section Widget.

(** [alpha] of [@mui/material/styles]: a colour and an opacity to a CSS
    colour.  The library is not part of the repository. *)
Variable alpha : string -> number -> string.

Variable A : Type.

Definition tintBackground (color : string) : ModeStyle :=
  {| ms_background :=
       "linear-gradient(180deg, rgba(255,255,255,0.05), rgba(0,0,0,0.1)), "
         ++ alpha color (Q2Qc (18 # 100));
     ms_borderColor := alpha color (Q2Qc (45 # 100));
     ms_dot := color |}.

Definition baseBackground (theme : Theme) : string :=
  "linear-gradient(180deg, " ++ alpha (grey_800 theme) (Q2Qc (9 # 10))
    ++ ", " ++ alpha (grey_700 theme) (Q2Qc (9 # 10)) ++ ")".

Definition modeStyles (theme : Theme) : list (string * ModeStyle) :=
  [ ("cool", tintBackground (info_main theme));
    ("heat", tintBackground (error_main theme));
    ("off", {| ms_background := baseBackground theme;
               ms_borderColor := "divider";
               ms_dot := grey_400 theme |}) ].

Definition editingSx (theme : Theme) : EditingSx :=
  {| es_boxShadow :=
       "inset 0 0 0 2px " ++ grey_200 theme
         ++ ", inset 0 1px 2px rgba(0,0,0,0.12)";
     es_afterShadow :=
       "0 0 6px " ++ alpha (secondary_main theme) (Q2Qc (28 # 100));
     es_zIndex := 2%Z |}.

(** The body of [zones.map] for one zone (README.md, lines 232-253). *)
Definition zoneView (theme : Theme) (props : BedDualZoneProps A)
           (u : Unit) (key : Side) (state : ZoneState) (name : string)
  : ZoneView A :=
  let isEditing :=
    match p_editingSide props with
    | Some e => Side_eqb e key
    | None => false
    end in
  let ariaLabel :=
    name ++ " side: " ++ mode state
      ++ (if isEditing then ", editing" else "") in
  {| v_key := key;
     v_onClick :=
       match p_onSideClick props with
       | Some h => Some (h key)
       | None => None
       end;
     v_ariaLabel := ariaLabel;
     v_pressed := isEditing;
     v_title := ariaLabel;
     v_borderRadius :=
       match key with Left => "16px 0 0 16px" | Right => "0 16px 16px 0" end;
     v_modeStyle := entry (mode state) (modeStyles theme);
     v_editingSx := if isEditing then Some (editingSx theme) else None;
     v_opacity :=
       match p_editingSide props with
       | Some _ => if negb isEditing then Q2Qc (6 # 10) else Num.ofZ 1
       | None => Num.ofZ 1
       end;
     v_name := name;
     v_temp := numStr (formatTemp u (currentTemp state)) ++ unitLabel u;
     v_target := targetLabel u state;
     v_schedule :=
       match scheduleLabel state with
       | Some l => if truthy l then Some l else None
       | None => None
       end |}.

Definition BedDualZone (theme : Theme) (props : BedDualZoneProps A)
  : View A :=
  let u := nullish (p_unit props) F in
  let leftName :=
    nullish (match p_sideNames props with
             | Some n => np_left n
             | None => None
             end) "Left" in
  let rightName :=
    nullish (match p_sideNames props with
             | Some n => np_right n
             | None => None
             end) "Right" in
  {| r_maxWidth := nullish (p_width props) (Num.ofZ 360);
     r_sx := p_sx props;
     r_zones :=
       [ zoneView theme props u Left (p_left props) leftName;
         zoneView theme props u Right (p_right props) rightName ] |}.

(** The button of side [s], and what a click on it calls. *)
Definition zoneButton (view : View A) (s : Side) : option (ZoneView A) :=
  find (fun v => Side_eqb (v_key v) s) (r_zones view).

Definition click (view : View A) (s : Side) : option A :=
  match zoneButton view s with
  | Some v => v_onClick v
  | None => None
  end.

End Widget.

Arguments zoneView alpha {A}.
Arguments BedDualZone alpha {A}.
Arguments zoneButton {A}.
Arguments click {A}.

(** The derived values a zone shows, colours left out. *)
Record Display : Type := mkDisplay {
  d_name : string;
  d_temp : string;
  d_target : option string;
  d_tint : option string;
  d_aria : string;
  d_schedule : option string;
  d_highlight : bool;
  d_opacity : number
}.

Definition display {A : Type} (v : ZoneView A) : Display :=
  {| d_name := v_name v;
     d_temp := v_temp v;
     d_target := v_target v;
     d_tint := option_map fst (v_modeStyle v);
     d_aria := v_ariaLabel v;
     d_schedule := v_schedule v;
     d_highlight := v_pressed v;
     d_opacity := v_opacity v |}.

Definition displays {A : Type} (view : View A) : list Display :=
  map display (r_zones view).

(** ** The demo shell: what it renders and the events it takes *)

Section Demo.

Variable alpha : string -> number -> string.
Variable theme : Theme.

(** The properties [BedDemo] passes to [BedDualZone] (lines 111-119 and
    184-192). *)
Definition demoProps (st : DemoState)
  : BedDualZoneProps (DemoState -> DemoState) :=
  {| p_left := z_left (st_zones st);
     p_right := z_right (st_zones st);
     p_editingSide := Some (st_editing st);
     p_onSideClick := Some (fun s => setEditing s);
     p_width := Some (Num.ofZ 360);
     p_sideNames :=
       Some (mkNameProps (Some (n_left (st_sideNames st)))
                         (Some (n_right (st_sideNames st))));
     p_unit := Some (st_unit st);
     p_sx := [] |}.

Definition demoWidget (st : DemoState) : View (DemoState -> DemoState) :=
  BedDualZone alpha theme (demoProps st).

(** The three [BottomNavigationAction]s and their [value]. *)
Inductive NavAction : Type := NavHome | NavSchedule | NavSettings.

Definition nav_value (a : NavAction) : string :=
  match a with
  | NavHome => "home"
  | NavSchedule => "schedule"
  | NavSettings => "settings"
  end.

(** The interactions the rendered tree offers. *)
Inductive Event : Type :=
| ZoneClick (s : Side)            (* a zone of the widget *)
| TabChange (v : option Side)     (* Tabs onChange *)
| PowerClick                      (* the power button *)
| MinusClick                      (* the minus button *)
| PlusClick                       (* the plus button *)
| UnitSwitch (checked : bool)     (* the unit switch *)
| LeftName (v : string)           (* the first text field *)
| RightName (v : string)          (* the second text field *)
| ScheduleSwitch (checked : bool) (* the schedule switch *)
| StartsAt (v : string)           (* the time field *)
| NavClick (a : NavAction).       (* the bottom navigation *)

Definition onHome (st : DemoState) : bool := st_page st =? "home".
Definition onSettings (st : DemoState) : bool :=
  negb (onHome st) && (st_page st =? "settings").
Definition onSchedule (st : DemoState) : bool :=
  negb (onHome st) && negb (st_page st =? "settings").

(** Whether the page on screen holds the control of the event. *)
Definition offered (st : DemoState) (e : Event) : bool :=
  match e with
  | ZoneClick _ | TabChange _ => onHome st || onSchedule st
  | PowerClick | MinusClick | PlusClick => onHome st
  | UnitSwitch _ | LeftName _ | RightName _ => onSettings st
  | ScheduleSwitch _ | StartsAt _ => onSchedule st
  | NavClick _ => true
  end.

(** The handler each control is wired to. *)
Definition handle (e : Event) (st : DemoState) : DemoState :=
  match e with
  | ZoneClick s =>
      match click (demoWidget st) s with
      | Some f => f st
      | None => st
      end
  | TabChange v =>
      match v with Some s => setEditing s st | None => st end
  | PowerClick => togglePower (st_editing st) st
  | MinusClick =>
      changeTemp (st_editing st) (- cfg_step (tempCfg (st_unit st))) st
  | PlusClick =>
      changeTemp (st_editing st) (cfg_step (tempCfg (st_unit st))) st
  | UnitSwitch checked => setUnit (if checked then C else F) st
  | LeftName v =>
      setSideNames (fun n => mkNames v (n_right n)) st
  | RightName v =>
      setSideNames (fun n => mkNames (n_left n) v) st
  | ScheduleSwitch checked => toggleSchedule (st_editing st) checked st
  | StartsAt v => setScheduleStart (st_editing st) v st
  | NavClick a => setPage (nav_value a) st
  end.

Definition step (st : DemoState) (e : Event) : option DemoState :=
  if offered st e then Some (handle e st) else None.

(** The states the demo can be in: the mounted state and whatever the
    offered events lead to. *)
Inductive reachable : DemoState -> Prop :=
| reach_init : reachable init
| reach_step st e st' :
    reachable st -> step st e = Some st' -> reachable st'.

(** A run of events from a state; an event not offered leaves it alone. *)
Fixpoint run (es : list Event) (st : DemoState) : DemoState :=
  match es with
  | [] => st
  | e :: rest =>
      run rest (match step st e with Some st' => st' | None => st end)
  end.

End Demo.

(** The four per-side editing operations, each applied to a side. *)
Inductive SideOp : Type :=
| OpChangeTemp (delta : number)
| OpTogglePower
| OpToggleSchedule (running' : bool)
| OpSetScheduleStart (nextStart' : string).

Definition apply_op (op : SideOp) (side : Side) : DemoState -> DemoState :=
  match op with
  | OpChangeTemp delta => changeTemp side delta
  | OpTogglePower => togglePower side
  | OpToggleSchedule r => toggleSchedule side r
  | OpSetScheduleStart t => setScheduleStart side t
  end.

(** A palette and an [alpha] to evaluate examples on. *)
Definition sampleTheme : Theme :=
  {| grey_200 := "#eeeeee"; grey_400 := "#bdbdbd"; grey_700 := "#616161";
     grey_800 := "#424242"; secondary_main := "#ce93d8";
     info_main := "#29b6f6"; error_main := "#f44336";
     background_paper := "#121212"; background_default := "#121212" |}.

Definition sampleAlpha (color : string) (_ : number) : string :=
  "alpha(" ++ color ++ ")".

(** ** Predicates the properties are stated with *)

(** Every zone of the state holds one of the three modes. *)
Definition modes_ok (st : DemoState) : Prop :=
  forall s : Side, valid_mode (mode (zone_at (st_zones st) s)).

(** A number within the range of a unit's configuration. *)
Definition in_range (u : Unit) (x : number) : Prop :=
  cfg_min (tempCfg u) <= x /\ x <= cfg_max (tempCfg u).

(** A press of the plus or of the minus button under unit [u]. *)
Definition is_press (u : Unit) (delta : number) : Prop :=
  delta = cfg_step (tempCfg u) \/ delta = - cfg_step (tempCfg u).

(** The zone after a sequence of presses, the first of the list first. *)
Definition presses (u : Unit) (deltas : list number) (z : ZoneState)
  : ZoneState :=
  fold_left (fun z' delta => changeTempZone u delta z') deltas z.

(** The zone state a side of the widget is given. *)
Definition stateOf {A : Type} (props : BedDualZoneProps A) (s : Side)
  : ZoneState :=
  match s with Left => p_left props | Right => p_right props end.

(** When a schedule label is due, in the words of the specification: the
    schedule is present with [running] true or a [nextStart] value. *)
Definition schedule_due_spec (z : ZoneState) : Prop :=
  exists s, schedule z = Some s /\ (running s = true \/ nextStart s <> None).

(** The same with a [nextStart] that is not the empty string. *)
Definition schedule_due (z : ZoneState) : Prop :=
  exists s, schedule z = Some s /\
    (running s = true \/ exists t, nextStart s = Some t /\ t <> "").

(** A zone that is off, with no target, and whose time field was cleared. *)
Definition clearedStart : ZoneState :=
  mkZone "off" (Num.ofZ 70) None (Some (mkSchedule false (Some ""))).

Definition clearedProps : BedDualZoneProps Side :=
  {| p_left := clearedStart;
     p_right := mkZone "cool" (Num.ofZ 72) (Some (Num.ofZ 68)) None;
     p_editingSide := None;
     p_onSideClick := None;
     p_width := None;
     p_sideNames := None;
     p_unit := None;
     p_sx := [] |}.

(** Two sets of properties that agree on the zones, the selection, the
    unit, the names and the width, and on nothing else. *)
Definition propsA : BedDualZoneProps Side :=
  {| p_left := mkZone "heat" (Num.ofZ 70) (Some (Num.ofZ 75)) None;
     p_right := clearedStart;
     p_editingSide := Some Right;
     p_onSideClick := Some (fun s => s);
     p_width := Some (Num.ofZ 320);
     p_sideNames := Some (mkNameProps (Some "Ann") None);
     p_unit := Some C;
     p_sx := [] |}.

Definition propsB : BedDualZoneProps bool :=
  {| p_left := mkZone "heat" (Num.ofZ 70) (Some (Num.ofZ 75)) None;
     p_right := clearedStart;
     p_editingSide := Some Right;
     p_onSideClick := None;
     p_width := Some (Num.ofZ 320);
     p_sideNames := Some (mkNameProps (Some "Ann") None);
     p_unit := Some C;
     p_sx := [("mt", "8px")] |}.

Definition lightTheme : Theme :=
  {| grey_200 := "#eee"; grey_400 := "#bdb"; grey_700 := "#616";
     grey_800 := "#424"; secondary_main := "#9c27b0";
     info_main := "#0288d1"; error_main := "#d32f2f";
     background_paper := "#fff"; background_default := "#fff" |}.

(** ** The rest of what the demo renders (BedDemo.tsx, lines 99-230) *)

(** [pageTitle] (line 99). *)
Definition pageTitle (st : DemoState) : string :=
  if st_page st =? "home" then "Home"
  else if st_page st =? "settings" then "Settings"
  else "Schedule".

(** The [label] of each [BottomNavigationAction] (lines 226-228). *)
Definition nav_label (a : NavAction) : string :=
  match a with
  | NavHome => "Home"
  | NavSchedule => "Schedule"
  | NavSettings => "Settings"
  end.

(** [zones[editing]] (lines 133, 208 and 218). *)
Definition editedZone (st : DemoState) : ZoneState :=
  zone_at (st_zones st) (st_editing st).

(** [target], the number between the minus and the plus button (line 134). *)
Definition readout (st : DemoState) : number :=
  shownTarget (st_unit st) (editedZone st).

(** [color] of the power button (line 138). *)
Definition powerColor (st : DemoState) : string :=
  if mode (editedZone st) =? "off" then "default" else "secondary".

(** [checked] of the unit switch (line 165). *)
Definition unitChecked (st : DemoState) : bool :=
  match st_unit st with C => true | F => false end.

(** [checked] of the schedule switch (line 208):
    [!!zones[editing].schedule?.running]. *)
Definition scheduleChecked (st : DemoState) : bool :=
  match schedule (editedZone st) with
  | Some s => running s
  | None => false
  end.

(** [value] of the time field (line 218):
    [zones[editing].schedule?.nextStart ?? '']. *)
Definition startsAtValue (st : DemoState) : string :=
  nullish (match schedule (editedZone st) with
           | Some s => nextStart s
           | None => None
           end) "".

(** ** Further predicates *)

(** [Math.min(tempCfg.max, Math.max(tempCfg.min, x))] (line 65). *)
Definition clamp (u : Unit) (x : number) : number :=
  Num.min (cfg_max (tempCfg u)) (Num.max (cfg_min (tempCfg u)) x).

(** The numbers [toUnit] can give: whole degrees under F, tenths under C. *)
Definition grid_den (u : Unit) : Z :=
  match u with F => 1%Z | C => 10%Z end.

Definition on_grid (u : Unit) (x : number) : Prop :=
  exists k : Z, x = Num.ofZ k / Num.ofZ (grid_den u).

(** A zone whose mode and target agree: off, or heating towards a target not
    below the current temperature, or cooling towards one not above it. *)
Definition coherent (z : ZoneState) : Prop :=
  mode z = "off" \/
  exists t, targetTemp z = Some t /\
    ((mode z = "heat" /\ currentTemp z <= t) \/
     (mode z = "cool" /\ t <= currentTemp z)).


(** * Properties *)

(** ** Arithmetic of the number model *)

(** Two numbers given in closed form are equal when their values are. *)
Ltac by_value := apply Qc_is_canon; vm_compute; reflexivity.

(** A string that is one of the three modes. *)
Ltac is_mode := unfold valid_mode, Modes; simpl; auto.

Lemma ofZ_Q (z : Z) : (Num.ofZ z : Q) = inject_Z z.
Proof.
  unfold Num.ofZ, Q2Qc, this. apply Qred_identity. simpl. apply Z.gcd_1_r.
Qed.

Lemma Qc_mult_Q (x y : Qc) : ((x * y)%Qc : Q) == (x : Q) * (y : Q).
Proof. unfold Qcmult, Q2Qc, this. apply Qred_correct. Qed.

Lemma Qc_div_Q (x y : Qc) : ((x / y)%Qc : Q) == (x : Q) / (y : Q).
Proof.
  unfold Qcdiv, Qcmult, Qcinv, Q2Qc, this.
  rewrite !Qred_correct. reflexivity.
Qed.

(** ** Unit conversion *)

Lemma ofZ_nonzero (z : Z) : z <> 0%Z -> Num.ofZ z <> 0.
Proof.
  intros Hz H. apply Hz.
  assert (E : (Num.ofZ z : Q) == (0 : Qc)) by (rewrite H; reflexivity).
  rewrite ofZ_Q in E. unfold Qeq in E. simpl in E. lia.
Qed.

Lemma fToC_cToF (c : number) : fToC (cToF c) = c.
Proof.
  unfold fToC, cToF.
  pose proof (ofZ_nonzero 9 ltac:(lia)) as H9.
  pose proof (ofZ_nonzero 5 ltac:(lia)) as H5.
  unfold Num.number. field. split; assumption.
Qed.

Lemma cToF_fToC (f : number) : cToF (fToC f) = f.
Proof.
  unfold fToC, cToF.
  pose proof (ofZ_nonzero 9 ltac:(lia)) as H9.
  pose proof (ofZ_nonzero 5 ltac:(lia)) as H5.
  unfold Num.number. field. split; assumption.
Qed.

(** C3: with exact rational arithmetic the two conversions are inverse to
    each other: [cToF (fToC f) = f] for every Fahrenheit value [f], and
    [fToC (cToF c) = c] for every Celsius value [c]. *)
Theorem conversion_roundtrip :
  (forall f : number, cToF (fToC f) = f) /\
  (forall c : number, fToC (cToF c) = c).
Proof. split; [exact cToF_fToC | exact fToC_cToF]. Qed.

Example fToC_212 : fToC (Num.ofZ 212) = Num.ofZ 100.
Proof. by_value. Qed.

Example cToF_28 : cToF (Num.ofZ 28) = Q2Qc (412 # 5).
Proof. by_value. Qed.

(** ** Comparisons *)

Lemma gt_true (a b : number) : Num.gt a b = true <-> b < a.
Proof.
  unfold Num.gt. rewrite Qclt_alt.
  destruct (b ?= a); split; congruence.
Qed.

Lemma lt_true (a b : number) : Num.lt a b = true <-> a < b.
Proof.
  unfold Num.lt. rewrite Qclt_alt.
  destruct (a ?= b); split; congruence.
Qed.

Lemma lt_false (a b : number) : Num.lt a b = false <-> b <= a.
Proof.
  split; intro H.
  - apply Qcnot_lt_le. intro L. apply lt_true in L. congruence.
  - destruct (Num.lt a b) eqn:E; [|reflexivity].
    apply lt_true in E. exfalso. exact (Qcle_not_lt _ _ H E).
Qed.

(** ** One side at a time *)

Lemma zone_put_same (z : Zones) (s : Side) (v : ZoneState) :
  zone_at (zone_put z s v) s = v.
Proof. destruct s; reflexivity. Qed.

Lemma zone_put_other (z : Zones) (s : Side) (v : ZoneState) :
  zone_at (zone_put z s v) (other s) = zone_at z (other s).
Proof. destruct s; reflexivity. Qed.

Lemma updateZone_same (side : Side) (f : ZoneState -> ZoneState)
      (st : DemoState) :
  zone_at (st_zones (updateZone side f st)) side
  = f (zone_at (st_zones st) side).
Proof. unfold updateZone, setZones; simpl. apply zone_put_same. Qed.

Lemma updateZone_other (side : Side) (f : ZoneState -> ZoneState)
      (st : DemoState) :
  zone_at (st_zones (updateZone side f st)) (other side)
  = zone_at (st_zones st) (other side).
Proof. unfold updateZone, setZones; simpl. apply zone_put_other. Qed.

Lemma apply_op_updateZone (op : SideOp) (side : Side) (st : DemoState) :
  exists f, apply_op op side st = updateZone side f st.
Proof.
  destruct op; simpl; unfold changeTemp, togglePower, toggleSchedule,
    setScheduleStart; eexists; reflexivity.
Qed.

(** C1: whichever of [changeTemp], [togglePower], [toggleSchedule] and
    [setScheduleStart] is applied to a side, in whatever demo state, the
    [ZoneState] of the opposite side is the one it was. *)
Theorem edit_leaves_other_side :
  forall (st : DemoState) (s : Side) (op : SideOp),
    zone_at (st_zones (apply_op op s st)) (other s)
    = zone_at (st_zones st) (other s).
Proof.
  intros st s op.
  destruct (apply_op_updateZone op s st) as [f ->].
  apply updateZone_other.
Qed.

Example changeTemp_left_keeps_right :
  z_right (st_zones (changeTemp Left (Num.ofZ 1) init))
  = z_right (st_zones init).
Proof. reflexivity. Qed.

(** ** The unit switch and the navigation *)

(** C5: the unit switch writes the unit and nothing else: both zones, and so
    their [currentTemp] and [targetTemp] kept in Fahrenheit, the editing
    selection, the page and the side names are what they were. *)
Theorem unit_switch_frame :
  forall alpha theme (st : DemoState) (checked : bool),
    let st' := handle alpha theme (UnitSwitch checked) st in
    st_unit st' = (if checked then C else F) /\
    (forall s : Side,
        currentTemp (zone_at (st_zones st') s)
        = currentTemp (zone_at (st_zones st) s) /\
        targetTemp (zone_at (st_zones st') s)
        = targetTemp (zone_at (st_zones st) s)) /\
    st_zones st' = st_zones st /\
    st_editing st' = st_editing st /\
    st_page st' = st_page st /\
    st_sideNames st' = st_sideNames st.
Proof. intros; subst st'; simpl; repeat split. Qed.

Lemma nav_value_page (a : NavAction) : In (nav_value a) Pages.
Proof. destruct a; simpl; auto. Qed.

Lemma handle_page alpha theme (e : Event) (st : DemoState) :
  st_page (handle alpha theme e st) = st_page st \/
  exists a, e = NavClick a /\ st_page (handle alpha theme e st) = nav_value a.
Proof.
  destruct e; simpl; try (left; reflexivity).
  - destruct s; left; reflexivity.
  - destruct v; left; reflexivity.
  - right; eexists; split; reflexivity.
Qed.

Lemma reachable_page alpha theme (st : DemoState) :
  reachable alpha theme st -> In (st_page st) Pages.
Proof.
  induction 1 as [|st e st' Hr IH Hs].
  - simpl; auto.
  - unfold step in Hs. destruct (offered st e); [|discriminate].
    injection Hs as <-.
    destruct (handle_page alpha theme e st) as [-> | [a [_ ->]]].
    + exact IH.
    + apply nav_value_page.
Qed.

(** C7: a click on the bottom navigation writes the page and nothing else:
    the zones, the editing selection, the unit and the side names are what
    they were, and the page becomes the value of the action clicked, one of
    home, settings and schedule; in every state the demo can reach the page
    is one of these three. *)
Theorem navigation_frame :
  forall alpha theme,
    (forall (st : DemoState) (a : NavAction),
        let st' := handle alpha theme (NavClick a) st in
        st_zones st' = st_zones st /\
        st_editing st' = st_editing st /\
        st_unit st' = st_unit st /\
        st_sideNames st' = st_sideNames st /\
        st_page st' = nav_value a /\
        In (st_page st') Pages) /\
    (forall st : DemoState,
        reachable alpha theme st -> In (st_page st) Pages).
Proof.
  intros alpha theme. split.
  - intros st a st'. subst st'. simpl.
    repeat split. apply nav_value_page.
  - apply reachable_page.
Qed.

(** The page after Settings was clicked on the mounted demo. *)
Lemma navigation_frame_witness :
  In (st_page (handle sampleAlpha sampleTheme (NavClick NavSettings) init))
     Pages.
Proof.
  apply (proj2 (navigation_frame sampleAlpha sampleTheme)).
  apply (reach_step _ _ init (NavClick NavSettings));
    [apply reach_init | reflexivity].
Defined.

(** ** The mode of a zone *)

Lemma changeTempZone_mode (u : Unit) (delta : number) (z : ZoneState) :
  valid_mode (mode z) -> valid_mode (mode (changeTempZone u delta z)).
Proof.
  intro Hz. unfold changeTempZone; cbn [mode].
  destruct (mode z =? "off"); [exact Hz|].
  destruct (Num.gt _ _); [is_mode|].
  destruct (Num.lt _ _); [is_mode|].
  exact Hz.
Qed.

Lemma togglePowerZone_mode (z : ZoneState) :
  valid_mode (mode (togglePowerZone z)).
Proof.
  unfold togglePowerZone.
  destruct (mode z =? "off"); cbn [mode]; [|is_mode].
  destruct (Num.gt _ _); [is_mode|].
  destruct (Num.lt _ _); is_mode.
Qed.

Lemma updateZone_modes_ok (side : Side) (f : ZoneState -> ZoneState)
      (st : DemoState) :
  modes_ok st ->
  valid_mode (mode (f (zone_at (st_zones st) side))) ->
  modes_ok (updateZone side f st).
Proof.
  intros Hst Hf s.
  destruct (Side_eqb s side) eqn:E.
  - assert (s = side) as -> by (destruct s, side; simpl in E; congruence).
    rewrite updateZone_same. exact Hf.
  - assert (s = other side) as -> by (destruct s, side; simpl in E |- *; congruence).
    rewrite updateZone_other. apply Hst.
Qed.

Lemma apply_op_modes_ok (op : SideOp) (side : Side) (st : DemoState) :
  modes_ok st -> modes_ok (apply_op op side st).
Proof.
  intro Hst. destruct op; simpl;
    unfold changeTemp, togglePower, toggleSchedule, setScheduleStart;
    apply updateZone_modes_ok; try exact Hst.
  - apply changeTempZone_mode, Hst.
  - apply togglePowerZone_mode.
  - apply Hst.
  - apply Hst.
Qed.

Lemma init_modes_ok : modes_ok init.
Proof. intros [|]; is_mode. Qed.

Lemma handle_modes_ok alpha theme (e : Event) (st : DemoState) :
  modes_ok st -> modes_ok (handle alpha theme e st).
Proof.
  intro Hst. destruct e; simpl; try exact Hst.
  - destruct s; exact Hst.
  - destruct v; exact Hst.
  - exact (apply_op_modes_ok OpTogglePower _ _ Hst).
  - exact (apply_op_modes_ok (OpChangeTemp _) _ _ Hst).
  - exact (apply_op_modes_ok (OpChangeTemp _) _ _ Hst).
  - exact (apply_op_modes_ok (OpToggleSchedule _) _ _ Hst).
  - exact (apply_op_modes_ok (OpSetScheduleStart _) _ _ Hst).
Qed.

Lemma reachable_modes_ok alpha theme (st : DemoState) :
  reachable alpha theme st -> modes_ok st.
Proof.
  induction 1 as [|st e st' Hr IH Hs].
  - exact init_modes_ok.
  - unfold step in Hs. destruct (offered st e); [|discriminate].
    injection Hs as <-. apply handle_modes_ok, IH.
Qed.

(** C2: in every state the demo can reach, the mode of each zone is one of
    off, cool and heat; and each of [changeTemp], [togglePower],
    [toggleSchedule] and [setScheduleStart], on either side and with any
    argument, takes a state where this holds to a state where it holds. *)
Theorem mode_invariant :
  forall alpha theme,
    (forall st : DemoState,
        reachable alpha theme st ->
        forall s : Side,
          let m := mode (zone_at (st_zones st) s) in
          m = "off" \/ m = "cool" \/ m = "heat") /\
    (forall (st : DemoState) (op : SideOp) (side : Side),
        modes_ok st -> modes_ok (apply_op op side st)).
Proof.
  intros alpha theme. split.
  - intros st Hr s m.
    pose proof (reachable_modes_ok alpha theme st Hr s) as H.
    unfold valid_mode, Modes in H. simpl in H.
    subst m. intuition.
  - intros st op side. apply apply_op_modes_ok.
Qed.

(** The mounted demo after one press of plus on its left side. *)
Lemma mode_invariant_witness :
  modes_ok init /\
  modes_ok (apply_op (OpChangeTemp (Num.ofZ 1)) Left init) /\
  (let m := mode (zone_at (st_zones init) Right) in
   m = "off" \/ m = "cool" \/ m = "heat").
Proof.
  split; [exact init_modes_ok|]. split.
  - apply (proj2 (mode_invariant sampleAlpha sampleTheme)).
    exact init_modes_ok.
  - apply (proj1 (mode_invariant sampleAlpha sampleTheme)).
    apply reach_init.
Defined.

(** ** The power button *)

Lemma eqb_off_false (m : string) : (m =? "off") = false <-> m <> "off".
Proof. apply String.eqb_neq. Qed.

(** C10: [togglePower] alternates power: the mode it leaves is off exactly
    when the mode it found was not off.  When it turns a zone on, the zone
    gets a target, its own when it had one and [currentTemp] otherwise, and
    the mode is heat when the target is above or equal to [currentTemp] and
    cool when it is below. *)
Theorem togglePower_alternates :
  forall (st : DemoState) (side : Side),
    let z := zone_at (st_zones st) side in
    let z' := zone_at (st_zones (togglePower side st)) side in
    (mode z' = "off" <-> mode z <> "off") /\
    (mode z = "off" ->
     let target := nullish (targetTemp z) (currentTemp z) in
     targetTemp z' = Some target /\
     (mode z' = "heat" \/ mode z' = "cool") /\
     (currentTemp z < target -> mode z' = "heat") /\
     (target < currentTemp z -> mode z' = "cool") /\
     (target = currentTemp z -> mode z' = "heat")).
Proof.
  intros st side z z'. subst z'. unfold togglePower.
  rewrite updateZone_same. fold z. unfold togglePowerZone.
  destruct (mode z =? "off") eqn:E.
  - apply String.eqb_eq in E.
    set (target := nullish (targetTemp z) (currentTemp z)).
    cbn [mode targetTemp]. split.
    + split; [|congruence].
      destruct (Num.gt _ _); [discriminate|].
      destruct (Num.lt _ _); discriminate.
    + intros _. split; [reflexivity|].
      destruct (Num.gt target (currentTemp z)) eqn:G;
        [|destruct (Num.lt target (currentTemp z)) eqn:L].
      * apply gt_true in G.
        split; [left; reflexivity|]. split; [reflexivity|].
        split; [|reflexivity].
        intro L. exfalso. exact (Qclt_not_le _ _ G (Qclt_le_weak _ _ L)).
      * apply lt_true in L.
        split; [right; reflexivity|].
        split; [intro G'; apply gt_true in G'; congruence|].
        split; [reflexivity|].
        intro Heq. rewrite Heq in L.
        exfalso. exact (Qclt_not_eq _ _ L eq_refl).
      * split; [left; reflexivity|]. split; [reflexivity|].
        split; [|reflexivity].
        intro L'. apply lt_true in L'. congruence.
  - apply eqb_off_false in E. cbn [mode]. split.
    + split; [intros _; exact E | reflexivity].
    + intro H. contradiction.
Qed.

(** The right side of the mounted demo is off and has no target: turned on,
    it heats towards its own temperature. *)
Lemma togglePower_alternates_witness :
  mode (zone_at (st_zones (togglePower Right init)) Right) = "heat" /\
  targetTemp (zone_at (st_zones (togglePower Right init)) Right)
  = Some (Num.ofZ 70).
Proof.
  destruct (togglePower_alternates init Right) as [_ H].
  specialize (H eq_refl). simpl in H.
  destruct H as [Ht [_ [_ [_ Hm]]]].
  split; [apply Hm; reflexivity | exact Ht].
Defined.

(** ** What the widget shows *)

Lemma zoneButton_BedDualZone alpha (A : Type) theme
      (props : BedDualZoneProps A) (s : Side) :
  exists name,
    zoneButton (BedDualZone alpha theme props) s
    = Some (zoneView alpha theme props (nullish (p_unit props) F) s
              (stateOf props s) name).
Proof. destruct s; simpl; eexists; reflexivity. Qed.

Lemma targetLabel_shown (u : Unit) (z : ZoneState) :
  targetLabel u z <> None <-> (mode z <> "off" /\ targetTemp z <> None).
Proof.
  unfold targetLabel.
  destruct (mode z =? "off") eqn:E; simpl.
  - apply String.eqb_eq in E. split; [congruence | intros [H _]; contradiction].
  - apply String.eqb_neq in E.
    destruct (targetTemp z); split; try congruence; intuition congruence.
Qed.

Lemma truthy_nonempty (t : string) : truthy t = true <-> t <> "".
Proof. destruct t; simpl; split; congruence. Qed.

Lemma scheduleLabel_truthy (z : ZoneState) (l : string) :
  scheduleLabel z = Some l -> truthy l = true.
Proof.
  unfold scheduleLabel. destruct (schedule z) as [s|]; [|discriminate].
  destruct (running s); [intros [= <-]; reflexivity|].
  destruct (nextStart s) as [t|]; [|discriminate].
  destruct (truthy t); [intros [= <-]; reflexivity | discriminate].
Qed.

Lemma scheduleLabel_shown (z : ZoneState) :
  scheduleLabel z <> None <-> schedule_due z.
Proof.
  unfold scheduleLabel, schedule_due.
  destruct (schedule z) as [s|].
  - destruct (running s) eqn:R.
    + split; [|congruence]. intros _. exists s. auto.
    + destruct (nextStart s) as [t|] eqn:N.
      * destruct (truthy t) eqn:T.
        -- split; [|congruence]. intros _. exists s. split; [reflexivity|].
           right. exists t. split; [exact N|]. apply truthy_nonempty, T.
        -- split; [congruence|]. intros [s' [[= <-] [H | [t' [Ht Hne]]]]].
           ++ congruence.
           ++ rewrite N in Ht. injection Ht as <-.
              apply truthy_nonempty in Hne. congruence.
      * split; [congruence|]. intros [s' [[= <-] [H | [t' [Ht _]]]]];
          congruence.
  - split; [congruence|]. intros [s [H _]]. discriminate.
Qed.

Lemma zoneView_schedule alpha (A : Type) theme (props : BedDualZoneProps A)
      u key z name :
  v_schedule (zoneView alpha theme props u key z name) = scheduleLabel z.
Proof.
  unfold zoneView; cbn [v_schedule].
  destruct (scheduleLabel z) as [l|] eqn:E; [|reflexivity].
  rewrite (scheduleLabel_truthy z l E). reflexivity.
Qed.

(** C6 as amended: the button of each side carries a target label exactly
    when the mode is not off and [targetTemp] is present, and a schedule
    label exactly when the schedule is present with [running] true or with a
    [nextStart] that is not the empty string; an absent [targetTemp] gives
    no target label and an absent schedule no schedule label. *)
Theorem labels_shown :
  forall alpha (A : Type) theme (props : BedDualZoneProps A) (s : Side),
  exists v,
    zoneButton (BedDualZone alpha theme props) s = Some v /\
    v_key v = s /\
    let z := stateOf props s in
    (v_target v <> None <-> (mode z <> "off" /\ targetTemp z <> None)) /\
    (v_schedule v <> None <-> schedule_due z) /\
    (targetTemp z = None -> v_target v = None) /\
    (schedule z = None -> v_schedule v = None).
Proof.
  intros alpha A theme props s.
  destruct (zoneButton_BedDualZone alpha A theme props s) as [name H].
  eexists. split; [exact H|]. split; [reflexivity|].
  intro z. subst z. rewrite zoneView_schedule.
  unfold zoneView; cbn [v_target].
  split; [apply targetLabel_shown|].
  split; [apply scheduleLabel_shown|].
  split.
  - intro Hn. unfold targetLabel. rewrite Hn.
    destruct (negb _); reflexivity.
  - intro Hn. unfold scheduleLabel. rewrite Hn. reflexivity.
Qed.

(** On [clearedProps] neither side has a target label on the left, nor a
    schedule label on the right, for want of the field. *)
Lemma labels_shown_witness :
  exists v,
    zoneButton (BedDualZone sampleAlpha sampleTheme clearedProps) Left
    = Some v /\
    v_target v = None /\
  exists w,
    zoneButton (BedDualZone sampleAlpha sampleTheme clearedProps) Right
    = Some w /\
    v_schedule w = None.
Proof.
  destruct (labels_shown sampleAlpha Side sampleTheme clearedProps Left)
    as [v [Hv [_ [_ [_ [Ht _]]]]]].
  destruct (labels_shown sampleAlpha Side sampleTheme clearedProps Right)
    as [w [Hw [_ [_ [_ [_ Hs]]]]]].
  exists v. split; [exact Hv|]. split; [apply Ht; reflexivity|].
  exists w. split; [exact Hw|]. apply Hs; reflexivity.
Defined.

(** C6 as stated fails: with [nextStart] present but empty, and [running]
    false, the schedule is present with a [nextStart] value and yet the
    button carries no schedule label. *)
Lemma empty_start_no_label :
  schedule_due_spec (stateOf clearedProps Left) /\
  option_map v_schedule
    (zoneButton (BedDualZone sampleAlpha sampleTheme clearedProps) Left)
  = Some None.
Proof.
  split.
  - exists (mkSchedule false (Some "")). split; [reflexivity|].
    right. discriminate.
  - reflexivity.
Qed.

(** The demo gets there: on the schedule page, clearing the time field. *)
Example cleared_start_reachable :
  reachable sampleAlpha sampleTheme
    (run sampleAlpha sampleTheme [NavClick NavSchedule; StartsAt ""] init)
  /\ schedule (z_left (st_zones
       (run sampleAlpha sampleTheme [NavClick NavSchedule; StartsAt ""] init)))
     = Some (mkSchedule false (Some "")).
Proof.
  split; [|reflexivity].
  apply (reach_step _ _
           (run sampleAlpha sampleTheme [NavClick NavSchedule] init)
           (StartsAt "")); [|reflexivity].
  apply (reach_step _ _ init (NavClick NavSchedule));
    [apply reach_init | reflexivity].
Qed.

(** ** Clicking a zone *)

Lemma click_BedDualZone alpha (A : Type) theme (props : BedDualZoneProps A)
      (s : Side) :
  click (BedDualZone alpha theme props) s
  = option_map (fun h => h s) (p_onSideClick props).
Proof.
  unfold click.
  destruct (zoneButton_BedDualZone alpha A theme props s) as [name ->].
  unfold zoneView; cbn [v_onClick].
  destruct (p_onSideClick props); reflexivity.
Qed.

(** C4: a click on the zone of side [s] calls [onSideClick], when the parent
    gave one, with [s] and with nothing else; in the demo the call sets the
    editing selection to [s] and changes no other cell; the demo always hands
    the widget one selected side, and exactly the button of that side is
    pressed. *)
Theorem click_selects_side :
  forall alpha theme,
    (forall (A : Type) (props : BedDualZoneProps A) (s : Side),
        click (BedDualZone alpha theme props) s
        = option_map (fun h => h s) (p_onSideClick props)) /\
    (forall (st : DemoState) (s : Side),
        click (demoWidget alpha theme st) s = Some (setEditing s) /\
        let st' := handle alpha theme (ZoneClick s) st in
        st_editing st' = s /\
        st_zones st' = st_zones st /\
        st_unit st' = st_unit st /\
        st_page st' = st_page st /\
        st_sideNames st' = st_sideNames st) /\
    (forall st : DemoState,
        p_editingSide (demoProps st) = Some (st_editing st) /\
        map v_key (filter v_pressed (r_zones (demoWidget alpha theme st)))
        = [st_editing st]).
Proof.
  intros alpha theme. split; [|split].
  - intros A props s. apply click_BedDualZone.
  - intros st s.
    assert (Hc : click (demoWidget alpha theme st) s = Some (setEditing s)).
    { unfold demoWidget. rewrite click_BedDualZone. reflexivity. }
    split; [exact Hc|].
    cbn [handle]. rewrite Hc. simpl. repeat split.
  - intro st. split; [reflexivity|].
    unfold demoWidget, BedDualZone, zoneView, demoProps; simpl.
    destruct (st_editing st); reflexivity.
Qed.

Example click_right_on_mount :
  st_editing (handle sampleAlpha sampleTheme (ZoneClick Right) init) = Right.
Proof. reflexivity. Qed.

(** ** The widget as a function of its properties *)

Lemma entry_modeStyles_key alpha theme1 alpha' theme2 (m : string) :
  option_map fst (entry m (modeStyles alpha theme1))
  = option_map fst (entry m (modeStyles alpha' theme2)).
Proof.
  unfold modeStyles, entry.
  destruct ("cool" =? m); [reflexivity|].
  destruct ("heat" =? m); [reflexivity|].
  destruct ("off" =? m); reflexivity.
Qed.

Lemma display_zoneView alpha alpha' (A B : Type) theme1 theme2
      (p1 : BedDualZoneProps A) (p2 : BedDualZoneProps B) u key z name :
  p_editingSide p1 = p_editingSide p2 ->
  display (zoneView alpha theme1 p1 u key z name)
  = display (zoneView alpha' theme2 p2 u key z name).
Proof.
  intro He. unfold display, zoneView.
  cbn [v_name v_temp v_target v_modeStyle v_ariaLabel v_schedule v_pressed
       v_opacity].
  rewrite He.
  rewrite (entry_modeStyles_key alpha theme1 alpha' theme2). reflexivity.
Qed.

(** C8: the derived values the widget shows (side label, formatted
    temperature, target label, mode tint chosen, aria label, schedule label,
    highlight, opacity, and the width of the root) are determined by the two
    zone states, the editing selection, the unit, the side names and the
    width: two renderings that agree on these agree on all of them, whatever
    the theme, the colour function, the click handler and the extra styles
    of each. *)
Theorem render_depends_on_inputs_only :
  forall alpha alpha' (A B : Type) (theme1 theme2 : Theme)
         (p1 : BedDualZoneProps A) (p2 : BedDualZoneProps B),
    p_left p1 = p_left p2 ->
    p_right p1 = p_right p2 ->
    p_editingSide p1 = p_editingSide p2 ->
    p_unit p1 = p_unit p2 ->
    p_sideNames p1 = p_sideNames p2 ->
    p_width p1 = p_width p2 ->
    displays (BedDualZone alpha theme1 p1)
    = displays (BedDualZone alpha' theme2 p2) /\
    r_maxWidth (BedDualZone alpha theme1 p1)
    = r_maxWidth (BedDualZone alpha' theme2 p2).
Proof.
  intros alpha alpha' A B theme1 theme2 p1 p2 Hl Hr He Hu Hn Hw.
  unfold displays, BedDualZone; cbn [r_zones r_maxWidth map].
  rewrite Hl, Hr, Hu, Hn, Hw.
  rewrite (display_zoneView alpha alpha' A B theme1 theme2 p1 p2 _ Left _ _ He).
  rewrite (display_zoneView alpha alpha' A B theme1 theme2 p1 p2 _ Right _ _ He).
  split; reflexivity.
Qed.

(** [propsA] under the sample palette and [propsB] under the light one show
    the same. *)
Lemma render_depends_on_inputs_only_witness :
  displays (BedDualZone sampleAlpha sampleTheme propsA)
  = displays (BedDualZone (fun c _ => c) lightTheme propsB).
Proof.
  apply (render_depends_on_inputs_only sampleAlpha (fun c _ => c) Side bool
           sampleTheme lightTheme propsA propsB); reflexivity.
Defined.

(** ** The target stays in range *)

(** [Math.round] keeps a number between two integers between them. *)
Lemma round_between (a b : Z) (x : number) :
  Num.ofZ a <= x -> x <= Num.ofZ b ->
  Num.ofZ a <= Num.round x /\ Num.round x <= Num.ofZ b.
Proof.
  unfold Qcle. rewrite !ofZ_Q. intros Ha Hb.
  unfold Num.round. rewrite !ofZ_Q, <- !Zle_Qle.
  split.
  - rewrite <- (Qfloor_Z a). apply Qfloor_resp_le. lra.
  - assert (L : (inject_Z (Qfloor (x + (1 # 2))) < inject_Z (b + 1))%Q).
    { apply Qle_lt_trans with (y := ((x : Q) + (1 # 2))%Q).
      - apply Qfloor_le.
      - rewrite inject_Z_plus.
        change (inject_Z 1) with 1%Q. lra. }
    rewrite <- Zlt_Qlt in L. lia.
Qed.

Lemma clamp_in_range (u : Unit) (x : number) :
  in_range u (Num.min (cfg_max (tempCfg u)) (Num.max (cfg_min (tempCfg u)) x)).
Proof.
  assert (Hcfg : cfg_min (tempCfg u) <= cfg_max (tempCfg u))
    by (destruct u; unfold Qcle; simpl; unfold Qle; simpl; lia).
  unfold in_range, Num.min, Num.max.
  destruct (Num.lt (cfg_min (tempCfg u)) x) eqn:E1.
  - apply lt_true in E1.
    destruct (Num.lt x (cfg_max (tempCfg u))) eqn:E2.
    + apply lt_true in E2. split; apply Qclt_le_weak; assumption.
    + split; [exact Hcfg | apply Qcle_refl].
  - destruct (Num.lt (cfg_min (tempCfg u)) (cfg_max (tempCfg u))) eqn:E2.
    + split; [apply Qcle_refl | exact Hcfg].
    + apply lt_false in E2. split; [exact Hcfg | apply Qcle_refl].
Qed.

Lemma toUnit_fromUnit_C (x : number) :
  toUnit C (fromUnit C x) = Num.round (x * Num.ofZ 10) / Num.ofZ 10.
Proof. unfold toUnit, fromUnit. rewrite fToC_cToF. reflexivity. Qed.

(** What the demo shows for a stored value that came out of [fromUnit] on a
    number in range is in range. *)
Lemma toUnit_fromUnit_in_range (u : Unit) (x : number) :
  in_range u x -> in_range u (toUnit u (fromUnit u x)).
Proof.
  destruct u; unfold in_range; cbn [tempCfg cfg_min cfg_max]; intros [Hlo Hhi].
  - unfold toUnit, fromUnit. apply round_between; assumption.
  - rewrite toUnit_fromUnit_C.
    assert (H10 : Num.ofZ 130 <= x * Num.ofZ 10 /\
                  x * Num.ofZ 10 <= Num.ofZ 435).
    { unfold Qcle in *. rewrite Qc_mult_Q, !ofZ_Q in *.
      change (Num.n43_5 : Q) with (87 # 2)%Q in Hhi.
      change (inject_Z 13) with 13%Q in Hlo.
      change (inject_Z 130) with 130%Q.
      change (inject_Z 435) with 435%Q.
      change (inject_Z 10) with 10%Q.
      split; lra. }
    destruct H10 as [L H].
    destruct (round_between 130 435 _ L H) as [L' H'].
    unfold Qcle in *. rewrite Qc_div_Q, !ofZ_Q in *.
    change (Num.n43_5 : Q) with (87 # 2)%Q.
    change (inject_Z 13) with 13%Q.
    change (inject_Z 130) with 130%Q in L'.
    change (inject_Z 435) with 435%Q in H'.
    change (inject_Z 10) with 10%Q.
    split.
    + apply Qle_shift_div_l; [reflexivity | lra].
    + apply Qle_shift_div_r; [reflexivity | lra].
Qed.

Lemma shownTarget_changeTempZone (u : Unit) (delta : number) (z : ZoneState) :
  shownTarget u (changeTempZone u delta z)
  = toUnit u (fromUnit u
      (Num.min (cfg_max (tempCfg u))
         (Num.max (cfg_min (tempCfg u)) (shownTarget u z + delta)))).
Proof. reflexivity. Qed.

Lemma press_in_range (u : Unit) (delta : number) (z : ZoneState) :
  in_range u (shownTarget u (changeTempZone u delta z)).
Proof.
  rewrite shownTarget_changeTempZone.
  apply toUnit_fromUnit_in_range, clamp_in_range.
Qed.

Lemma presses_last (u : Unit) (deltas : list number) (delta : number)
      (z : ZoneState) :
  presses u (deltas ++ [delta]) z
  = changeTempZone u delta (presses u deltas z).
Proof. unfold presses. rewrite fold_left_app. reflexivity. Qed.

Lemma shownTarget_absent (u : Unit) (z : ZoneState) :
  targetTemp z = None -> shownTarget u z = cfg_mid (tempCfg u).
Proof.
  intro H. unfold shownTarget. rewrite H. cbn [nullish].
  destruct u; cbn [tempCfg cfg_mid].
  - by_value.
  - rewrite toUnit_fromUnit_C. by_value.
Qed.

(** C9: after any sequence of one or more presses of plus and minus under a
    unit, from any zone state, the target the demo shows is within that
    unit's range: from 55 to 110 under F, from 13 to 43.5 under C.  A zone
    without target shows the unit's mid value, 82 under F and 28 under C,
    and its first press starts from there. *)
Theorem target_stays_in_range :
  forall (u : Unit) (z : ZoneState) (deltas : list number),
    (deltas <> [] ->
     Forall (is_press u) deltas ->
     let shown := shownTarget u (presses u deltas z) in
     match u with
     | F => Num.ofZ 55 <= shown /\ shown <= Num.ofZ 110
     | C => Num.ofZ 13 <= shown /\ shown <= Num.n43_5
     end) /\
    (targetTemp z = None ->
     shownTarget u z = match u with F => Num.ofZ 82 | C => Num.ofZ 28 end /\
     forall delta,
       shownTarget u (changeTempZone u delta z)
       = toUnit u (fromUnit u
           (Num.min (cfg_max (tempCfg u))
              (Num.max (cfg_min (tempCfg u))
                 (match u with F => Num.ofZ 82 | C => Num.ofZ 28 end
                  + delta))))).
Proof.
  intros u z deltas. split.
  - intros Hne _ shown. subst shown.
    destruct (exists_last Hne) as [ds [d ->]].
    rewrite presses_last.
    pose proof (press_in_range u d (presses u ds z)) as H.
    destruct u; exact H.
  - intro Habs.
    pose proof (shownTarget_absent u z Habs) as Hmid.
    split.
    + rewrite Hmid. destruct u; reflexivity.
    + intro delta. rewrite shownTarget_changeTempZone, Hmid.
      destruct u; reflexivity.
Qed.

(** The right side of the mounted demo has no target; one press of plus
    under C shows a value in range. *)
Lemma target_stays_in_range_witness :
  let shown :=
    shownTarget C (presses C [Num.half] (z_right (st_zones init))) in
  Num.ofZ 13 <= shown /\ shown <= Num.n43_5.
Proof.
  apply (proj1 (target_stays_in_range C (z_right (st_zones init)) [Num.half])).
  - discriminate.
  - constructor; [left; reflexivity | constructor].
Defined.

(** ** The definitions on the mounted demo *)

Example plus_at_the_top_stays :
  shownTarget F
    (presses F [Num.ofZ 1; Num.ofZ 1]
       (mkZone "heat" (Num.ofZ 70) (Some (Num.ofZ 110)) None))
  = Num.ofZ 110.
Proof. by_value. Qed.

Example minus_from_absent_under_C :
  shownTarget C (presses C [- Num.half] (z_right (st_zones init)))
  = Q2Qc (55 # 2).
Proof. by_value. Qed.

Example plus_on_left_still_cools :
  mode (z_left (st_zones
          (handle sampleAlpha sampleTheme PlusClick init))) = "cool" /\
  shownTarget F (z_left (st_zones
          (handle sampleAlpha sampleTheme PlusClick init)))
  = Num.ofZ 69.
Proof.
  split; [reflexivity|]. by_value.
Qed.

Example widget_on_mount :
  map (fun v => (v_ariaLabel v, v_temp v, v_target v, v_schedule v))
      (r_zones (demoWidget sampleAlpha sampleTheme init))
  = [ ("Left side: cool, editing", "72" ++ degree ++ "F",
       Some ("Cooling to 68" ++ degree ++ "F"), None);
      ("Right side: off", "70" ++ degree ++ "F", None, None) ].
Proof. vm_compute. reflexivity. Qed.

(** The label of the widget rounds to whole degrees, so a target of 43.5
    under C reads 44 there while the demo's own readout shows 43.5. *)
Example widget_label_at_43_5 :
  let z := mkZone "heat" (Num.ofZ 70) (Some (cToF Num.n43_5)) None in
  targetLabel C z = Some ("Heating to 44" ++ degree ++ "C") /\
  shownTarget C z = Num.n43_5.
Proof.
  split; [vm_compute; reflexivity | by_value].
Qed.

(** The range is that of the unit the press was made under: a target left
    at 55 under F reads 12.8 once the unit is switched to C. *)
Example readout_after_unit_switch :
  shownTarget C
    (presses F [- Num.ofZ 1]
       (mkZone "cool" (Num.ofZ 70) (Some (Num.ofZ 55)) None))
  = Q2Qc (64 # 5).
Proof. by_value. Qed.

(** * Further properties of the demo and of the widget *)

(** ** What an update of one zone does to each zone *)

Lemma side_cases (side s : Side) : s = side \/ s = other side.
Proof. destruct side, s; simpl; auto. Qed.

Lemma updateZone_at (side : Side) (f : ZoneState -> ZoneState)
      (st : DemoState) (s : Side) :
  zone_at (st_zones (updateZone side f st)) s
  = if Side_eqb s side then f (zone_at (st_zones st) s)
    else zone_at (st_zones st) s.
Proof. destruct side, s; reflexivity. Qed.

Lemma updateZone_keeps {B : Type} (g : ZoneState -> B) (side : Side)
      (f : ZoneState -> ZoneState) (st : DemoState) :
  (forall z, g (f z) = g z) ->
  forall s, g (zone_at (st_zones (updateZone side f st)) s)
            = g (zone_at (st_zones st) s).
Proof.
  intros Hf s. rewrite updateZone_at.
  destruct (Side_eqb s side); [apply Hf | reflexivity].
Qed.

Lemma updateZone_updateZone (side : Side) (f g : ZoneState -> ZoneState)
      (st : DemoState) :
  updateZone side f (updateZone side g st)
  = updateZone side (fun z => f (g z)) st.
Proof. destruct side; reflexivity. Qed.

Lemma handle_zones alpha theme (e : Event) (st : DemoState) :
  st_zones (handle alpha theme e st) = st_zones st \/
  exists f, handle alpha theme e st = updateZone (st_editing st) f st.
Proof.
  destruct e; simpl;
    try (left; reflexivity);
    try (right; eexists; reflexivity).
  - destruct s; left; reflexivity.
  - destruct v; left; reflexivity.
Qed.

Lemma handle_keeps {B : Type} (g : ZoneState -> B) alpha theme
      (e : Event) (st : DemoState) :
  (forall u delta z, g (changeTempZone u delta z) = g z) ->
  (forall z, g (togglePowerZone z) = g z) ->
  (forall r z, g (toggleScheduleZone r z) = g z) ->
  (forall t z, g (setScheduleStartZone t z) = g z) ->
  forall s, g (zone_at (st_zones (handle alpha theme e st)) s)
            = g (zone_at (st_zones st) s).
Proof.
  intros Hc Hp Hr Ht s.
  destruct e; simpl; try reflexivity.
  - destruct s0; reflexivity.
  - destruct v; reflexivity.
  - apply updateZone_keeps, Hp.
  - apply updateZone_keeps, Hc.
  - apply updateZone_keeps, Hc.
  - apply updateZone_keeps, Hr.
  - apply updateZone_keeps, Ht.
Qed.

Lemma togglePowerZone_currentTemp (z : ZoneState) :
  currentTemp (togglePowerZone z) = currentTemp z.
Proof. unfold togglePowerZone. destruct (mode z =? "off"); reflexivity. Qed.

Lemma togglePowerZone_schedule (z : ZoneState) :
  schedule (togglePowerZone z) = schedule z.
Proof. unfold togglePowerZone. destruct (mode z =? "off"); reflexivity. Qed.

(** ** The sensed temperature *)

(** X1: no interaction writes [currentTemp]: every event leaves it as it was
    on both sides, so in every state the demo can reach the left side reads
    72 and the right side 70. *)
Theorem currentTemp_never_changes :
  forall alpha theme,
    (forall (e : Event) (st : DemoState) (s : Side),
        currentTemp (zone_at (st_zones (handle alpha theme e st)) s)
        = currentTemp (zone_at (st_zones st) s)) /\
    (forall st : DemoState,
        reachable alpha theme st ->
        currentTemp (z_left (st_zones st)) = Num.ofZ 72 /\
        currentTemp (z_right (st_zones st)) = Num.ofZ 70).
Proof.
  intros alpha theme.
  assert (H : forall e st s,
             currentTemp (zone_at (st_zones (handle alpha theme e st)) s)
             = currentTemp (zone_at (st_zones st) s)).
  { intros e st s. apply handle_keeps; try reflexivity.
    apply togglePowerZone_currentTemp. }
  split; [exact H|].
  induction 1 as [|st e st' Hr IH Hs]; [split; reflexivity|].
  unfold step in Hs. destruct (offered st e); [|discriminate].
  injection Hs as <-.
  pose proof (H e st Left) as Hl. pose proof (H e st Right) as Hrt.
  simpl in Hl, Hrt. rewrite Hl, Hrt. exact IH.
Qed.

(** A press of plus and a press of the power button on the mounted demo. *)
Lemma currentTemp_never_changes_witness :
  currentTemp (z_left (st_zones
     (run sampleAlpha sampleTheme [PlusClick; PowerClick] init)))
  = Num.ofZ 72.
Proof.
  apply (proj2 (currentTemp_never_changes sampleAlpha sampleTheme)).
  apply (reach_step _ _
           (run sampleAlpha sampleTheme [PlusClick] init) PowerClick);
    [|reflexivity].
  apply (reach_step _ _ init PlusClick); [apply reach_init | reflexivity].
Defined.

(** ** One side at a time, for every control *)

(** X2: whatever the control, an interaction leaves the zone that is not
    being edited exactly as it was. *)
Theorem event_leaves_unedited_side :
  forall alpha theme (e : Event) (st : DemoState),
    zone_at (st_zones (handle alpha theme e st)) (other (st_editing st))
    = zone_at (st_zones st) (other (st_editing st)).
Proof.
  intros alpha theme e st.
  destruct (handle_zones alpha theme e st) as [-> | [f ->]];
    [reflexivity | apply updateZone_other].
Qed.

(** X3: edits of opposite sides commute: any of the four operations on one
    side and any on the other give the same state in either order. *)
Theorem opposite_sides_commute :
  forall (op1 op2 : SideOp) (s : Side) (st : DemoState),
    apply_op op1 s (apply_op op2 (other s) st)
    = apply_op op2 (other s) (apply_op op1 s st).
Proof. intros op1 op2 s st. destruct op1, op2, s; reflexivity. Qed.

(** ** What each page lets the user change *)

Lemma pages_exclusive (st : DemoState) :
  (onHome st = true /\ onSettings st = false /\ onSchedule st = false) \/
  (onHome st = false /\ onSettings st = true /\ onSchedule st = false) \/
  (onHome st = false /\ onSettings st = false /\ onSchedule st = true).
Proof.
  unfold onSettings, onSchedule, onHome.
  destruct (st_page st =? "home"), (st_page st =? "settings"); simpl; auto.
Qed.

(** X4: the page on screen bounds what an interaction can change.  On the
    settings page no offered event touches the zones or the selection; on
    the home page none touches a schedule, the unit or the names; on the
    schedule page none touches a mode, a temperature, the unit or the
    names. *)
Theorem page_bounds_changes :
  forall alpha theme (st : DemoState) (e : Event),
    offered st e = true ->
    let st' := handle alpha theme e st in
    (onSettings st = true ->
     st_zones st' = st_zones st /\ st_editing st' = st_editing st) /\
    (onHome st = true ->
     (forall s, schedule (zone_at (st_zones st') s)
                = schedule (zone_at (st_zones st) s)) /\
     st_unit st' = st_unit st /\ st_sideNames st' = st_sideNames st) /\
    (onSchedule st = true ->
     (forall s, mode (zone_at (st_zones st') s)
                = mode (zone_at (st_zones st) s) /\
                currentTemp (zone_at (st_zones st') s)
                = currentTemp (zone_at (st_zones st) s) /\
                targetTemp (zone_at (st_zones st') s)
                = targetTemp (zone_at (st_zones st) s)) /\
     st_unit st' = st_unit st /\ st_sideNames st' = st_sideNames st).
Proof.
  intros alpha theme st e Hoff st'. subst st'.
  destruct (pages_exclusive st)
    as [[Hh [Hs Hc]] | [[Hh [Hs Hc]] | [Hh [Hs Hc]]]];
    rewrite Hh, Hs, Hc;
    (split; [|split]); intro Hp; try discriminate Hp; clear Hp.
  - (* home *)
    destruct e; simpl in Hoff; rewrite ?Hh, ?Hs, ?Hc in Hoff;
      try discriminate Hoff; simpl.
    + destruct s; repeat split.
    + destruct v; repeat split.
    + repeat split. intro s. apply updateZone_keeps, togglePowerZone_schedule.
    + repeat split. intro s. apply updateZone_keeps. reflexivity.
    + repeat split. intro s. apply updateZone_keeps. reflexivity.
    + repeat split.
  - (* settings *)
    destruct e; simpl in Hoff; rewrite ?Hh, ?Hs, ?Hc in Hoff;
      try discriminate Hoff; simpl; split; reflexivity.
  - (* schedule *)
    destruct e; simpl in Hoff; rewrite ?Hh, ?Hs, ?Hc in Hoff;
      try discriminate Hoff; simpl.
    + destruct s; repeat split.
    + destruct v; repeat split.
    + split; [|split; reflexivity]. intro s.
      repeat split; apply updateZone_keeps; reflexivity.
    + split; [|split; reflexivity]. intro s.
      repeat split; apply updateZone_keeps; reflexivity.
    + repeat split.
Qed.

(** On the settings page a rename leaves the zones alone. *)
Lemma page_bounds_changes_witness :
  st_zones (handle sampleAlpha sampleTheme (LeftName "Ann")
              (setPage "settings" init))
  = st_zones (setPage "settings" init).
Proof.
  apply (proj1 (page_bounds_changes sampleAlpha sampleTheme
                  (setPage "settings" init) (LeftName "Ann") eq_refl)).
  reflexivity.
Defined.

(** ** The schedule controls *)

(** X5: the two schedule operations on one side compose as writes to two
    separate fields: a second [toggleSchedule] or a second
    [setScheduleStart] overrides the first, and the two commute with each
    other. *)
Theorem schedule_writes_compose :
  forall (s : Side) (st : DemoState) (r1 r2 : bool) (t1 t2 : string),
    toggleSchedule s r2 (toggleSchedule s r1 st) = toggleSchedule s r2 st /\
    setScheduleStart s t2 (setScheduleStart s t1 st)
    = setScheduleStart s t2 st /\
    toggleSchedule s r1 (setScheduleStart s t1 st)
    = setScheduleStart s t1 (toggleSchedule s r1 st).
Proof.
  intros s st r1 r2 t1 t2.
  unfold toggleSchedule, setScheduleStart.
  rewrite !updateZone_updateZone. repeat split.
Qed.

Lemma editedZone_updateZone (f : ZoneState -> ZoneState) (st : DemoState) :
  editedZone (updateZone (st_editing st) f st) = f (editedZone st).
Proof. unfold editedZone. destruct st as [z [|] u p n]; reflexivity. Qed.

(** X6: the controls read back what was written through them: after the
    schedule switch is set to [b] it shows [b] and the time field shows what
    it showed; after the time field is set to [v] it shows [v] (the empty
    string included) and the switch shows what it showed; after the unit
    switch is set to [b] it shows [b]. *)
Theorem controls_read_back :
  forall alpha theme (st : DemoState) (b : bool) (v : string),
    scheduleChecked (handle alpha theme (ScheduleSwitch b) st) = b /\
    startsAtValue (handle alpha theme (ScheduleSwitch b) st)
    = startsAtValue st /\
    startsAtValue (handle alpha theme (StartsAt v) st) = v /\
    scheduleChecked (handle alpha theme (StartsAt v) st)
    = scheduleChecked st /\
    unitChecked (handle alpha theme (UnitSwitch b) st) = b.
Proof.
  intros alpha theme st b v.
  unfold scheduleChecked, startsAtValue, unitChecked; cbn [handle].
  unfold toggleSchedule, setScheduleStart.
  rewrite !editedZone_updateZone.
  unfold toggleScheduleZone, setScheduleStartZone; cbn.
  destruct (schedule (editedZone st)) as [sc|]; destruct b; repeat split.
Qed.

(** X7: the schedule label on the edited side of the widget is decided by
    what the two schedule controls show: the words for a running schedule
    when the switch is on, the start time when it is off and the time field
    is not empty, and no label otherwise. *)
Theorem schedule_label_follows_controls :
  forall alpha theme (st : DemoState),
    option_map v_schedule
      (zoneButton (demoWidget alpha theme st) (st_editing st))
    = Some (if scheduleChecked st then Some "Schedule running"
            else if truthy (startsAtValue st)
                 then Some ("Starts at " ++ startsAtValue st)
                 else None).
Proof.
  intros alpha theme st. unfold demoWidget.
  destruct (zoneButton_BedDualZone alpha _ theme (demoProps st)
              (st_editing st)) as [name ->].
  cbn [option_map]. rewrite zoneView_schedule.
  unfold scheduleChecked, startsAtValue, editedZone, scheduleLabel.
  replace (stateOf (demoProps st) (st_editing st))
    with (zone_at (st_zones st) (st_editing st))
    by (destruct (st_editing st); reflexivity).
  destruct (schedule _) as [sc|]; [|reflexivity].
  destruct (running sc); [reflexivity|].
  destruct (nextStart sc) as [t|]; [|reflexivity].
  cbn [nullish]. destruct (truthy t); reflexivity.
Qed.

(** ** Mode and target agree *)

Lemma gt_lt (a b : number) : Num.gt a b = Num.lt b a.
Proof. reflexivity. Qed.

Lemma gt_false (a b : number) : Num.gt a b = false <-> a <= b.
Proof. rewrite gt_lt. apply lt_false. Qed.


Lemma updateZone_all (P : ZoneState -> Prop) (side : Side)
      (f : ZoneState -> ZoneState) (st : DemoState) :
  (forall s, P (zone_at (st_zones st) s)) ->
  P (f (zone_at (st_zones st) side)) ->
  forall s, P (zone_at (st_zones (updateZone side f st)) s).
Proof.
  intros Hst Hf s. rewrite updateZone_at.
  destruct (Side_eqb s side) eqn:E; [|apply Hst].
  assert (s = side) as -> by (destruct s, side; simpl in E; congruence).
  exact Hf.
Qed.

Lemma changeTempZone_coherent (u : Unit) (delta : number) (z : ZoneState) :
  coherent z -> coherent (changeTempZone u delta z).
Proof.
  intros [Hoff | [t [Ht Hm]]]; unfold changeTempZone, coherent;
    cbn [mode targetTemp currentTemp].
  - rewrite Hoff. left. reflexivity.
  - set (nextF := fromUnit u _).
    assert (Hon : (mode z =? "off") = false)
      by (destruct Hm as [[-> _] | [-> _]]; reflexivity).
    rewrite Hon. right. exists nextF. split; [reflexivity|].
    destruct (Num.gt nextF (currentTemp z)) eqn:G.
    + left. split; [reflexivity|].
      apply gt_true in G. apply Qclt_le_weak, G.
    + apply gt_false in G.
      destruct (Num.lt nextF (currentTemp z)) eqn:L.
      * right. split; [reflexivity | exact G].
      * apply lt_false in L.
        destruct Hm as [[Hm _] | [Hm _]]; [left | right];
          (split; [exact Hm | assumption]).
Qed.

Lemma togglePowerZone_coherent (z : ZoneState) :
  coherent (togglePowerZone z).
Proof.
  unfold togglePowerZone, coherent.
  destruct (mode z =? "off"); cbn [mode targetTemp currentTemp];
    [|left; reflexivity].
  right. eexists. split; [reflexivity|].
  set (t := nullish (targetTemp z) (currentTemp z)).
  destruct (Num.gt t (currentTemp z)) eqn:G.
  - left. split; [reflexivity|]. apply gt_true in G. apply Qclt_le_weak, G.
  - apply gt_false in G.
    destruct (Num.lt t (currentTemp z)) eqn:L.
    + right. split; [reflexivity | exact G].
    + left. split; [reflexivity|]. apply lt_false in L. exact L.
Qed.

Lemma handle_coherent alpha theme (e : Event) (st : DemoState) :
  (forall s, coherent (zone_at (st_zones st) s)) ->
  forall s, coherent (zone_at (st_zones (handle alpha theme e st)) s).
Proof.
  intro Hst. destruct e; simpl; try exact Hst.
  - destruct s; exact Hst.
  - destruct v; exact Hst.
  - apply updateZone_all; [exact Hst | apply togglePowerZone_coherent].
  - apply updateZone_all; [exact Hst | apply changeTempZone_coherent, Hst].
  - apply updateZone_all; [exact Hst | apply changeTempZone_coherent, Hst].
  - apply updateZone_all; [exact Hst | apply Hst].
  - apply updateZone_all; [exact Hst | apply Hst].
Qed.

Lemma reachable_coherent alpha theme (st : DemoState) :
  reachable alpha theme st -> forall s, coherent (zone_at (st_zones st) s).
Proof.
  induction 1 as [|st e st' Hr IH Hs].
  - intros [|]; [right | left; reflexivity].
    exists (Num.ofZ 68). split; [reflexivity|].
    right. split; [reflexivity|].
    unfold Qcle, Qle; simpl; lia.
  - unfold step in Hs. destruct (offered st e); [|discriminate].
    injection Hs as <-. apply handle_coherent, IH.
Qed.

(** X8: in every state the demo can reach, a zone that is not off has a
    target, a heating zone's target is not below its current temperature,
    and a cooling zone's target is not above it. *)
Theorem mode_agrees_with_target :
  forall alpha theme (st : DemoState),
    reachable alpha theme st ->
    forall s : Side,
      let z := zone_at (st_zones st) s in
      mode z = "off" \/
      exists t, targetTemp z = Some t /\
        ((mode z = "heat" /\ currentTemp z <= t) \/
         (mode z = "cool" /\ t <= currentTemp z)).
Proof. intros alpha theme st Hr s. exact (reachable_coherent _ _ _ Hr s). Qed.

(** The left side of the mounted demo after a press of plus. *)
Lemma mode_agrees_with_target_witness :
  let z := z_left (st_zones (handle sampleAlpha sampleTheme PlusClick init)) in
  mode z = "off" \/
  exists t, targetTemp z = Some t /\
    ((mode z = "heat" /\ currentTemp z <= t) \/
     (mode z = "cool" /\ t <= currentTemp z)).
Proof.
  apply (mode_agrees_with_target sampleAlpha sampleTheme _
           (reach_step _ _ init PlusClick _ (reach_init _ _) eq_refl) Left).
Defined.




(** ** Power and the temperature buttons *)

Lemma updateZone_fixed (side : Side) (f : ZoneState -> ZoneState)
      (st : DemoState) :
  f (zone_at (st_zones st) side) = zone_at (st_zones st) side ->
  updateZone side f st = st.
Proof.
  intro H. destruct st as [[l r] e u p n], side; simpl in H;
    unfold updateZone, setZones; simpl; rewrite H; reflexivity.
Qed.

Lemma zone_eta (z : ZoneState) :
  mkZone (mode z) (currentTemp z) (targetTemp z) (schedule z) = z.
Proof. destruct z; reflexivity. Qed.

Lemma togglePowerZone_twice_off (z : ZoneState) (t : number) :
  mode z = "off" -> targetTemp z = Some t ->
  togglePowerZone (togglePowerZone z) = z.
Proof.
  destruct z as [m c tt sc]; simpl. intros -> ->.
  unfold togglePowerZone; simpl.
  destruct (Num.gt t c); [|destruct (Num.lt t c)]; reflexivity.
Qed.

Lemma togglePowerZone_twice_on (z : ZoneState) (t : number) :
  targetTemp z = Some t ->
  (mode z = "heat" /\ currentTemp z <= t) \/
  (mode z = "cool" /\ t < currentTemp z) ->
  togglePowerZone (togglePowerZone z) = z.
Proof.
  destruct z as [m c tt sc]; simpl. intros -> [[-> Hle] | [-> Hlt]];
    unfold togglePowerZone; simpl.
  - apply lt_false in Hle. rewrite Hle.
    destruct (Num.gt t c); reflexivity.
  - pose proof (proj2 (gt_false t c) (Qclt_le_weak _ _ Hlt)) as G.
    apply lt_true in Hlt. rewrite G, Hlt. reflexivity.
Qed.

Lemma togglePowerZone_twice_mode (z : ZoneState) :
  mode (togglePowerZone (togglePowerZone z)) = "off" <-> mode z = "off".
Proof.
  destruct z as [m c tt sc]. unfold togglePowerZone at 2; simpl.
  destruct (m =? "off") eqn:E.
  - apply String.eqb_eq in E. unfold togglePowerZone; simpl.
    destruct (Num.gt _ c); [|destruct (Num.lt _ c)]; simpl; split; auto.
  - apply String.eqb_neq in E. unfold togglePowerZone; simpl.
    split; [|contradiction].
    destruct (Num.gt _ c); [|destruct (Num.lt _ c)]; discriminate.
Qed.

Lemma togglePowerZone_twice_target (z : ZoneState) :
  targetTemp (togglePowerZone (togglePowerZone z))
  = Some (nullish (targetTemp z) (currentTemp z)).
Proof.
  destruct z as [m c tt sc]. unfold togglePowerZone at 2; simpl.
  destruct (m =? "off").
  - unfold togglePowerZone; simpl.
    destruct (Num.gt _ c); [|destruct (Num.lt _ c)]; reflexivity.
  - unfold togglePowerZone; simpl. reflexivity.
Qed.

(** X10: two presses of the power button in a row.  The zone is off after
    them exactly when it was off before, and it holds the target it had, or
    its current temperature when it had none.  The state comes back
    unchanged when the zone was off with a target, heating towards a target
    not below the current temperature, or cooling towards one below it; a
    zone cooling towards a target equal to the current temperature comes
    back heating. *)
Theorem power_cycle :
  forall (side : Side) (st : DemoState),
    let z := zone_at (st_zones st) side in
    let st2 := togglePower side (togglePower side st) in
    let z2 := zone_at (st_zones st2) side in
    (mode z2 = "off" <-> mode z = "off") /\
    targetTemp z2 = Some (nullish (targetTemp z) (currentTemp z)) /\
    (forall t, targetTemp z = Some t ->
       mode z = "off" \/
       (mode z = "heat" /\ currentTemp z <= t) \/
       (mode z = "cool" /\ t < currentTemp z) ->
       st2 = st) /\
    (mode z = "cool" -> targetTemp z = Some (currentTemp z) ->
     mode z2 = "heat").
Proof.
  intros side st z st2 z2. subst st2 z2. unfold togglePower.
  rewrite updateZone_updateZone, updateZone_same. fold z.
  split; [apply togglePowerZone_twice_mode|].
  split; [apply togglePowerZone_twice_target|].
  split.
  - intros t Ht Hm. apply updateZone_fixed. fold z.
    destruct Hm as [Hoff | Hon].
    + exact (togglePowerZone_twice_off z t Hoff Ht).
    + exact (togglePowerZone_twice_on z t Ht Hon).
  - clearbody z. destruct z as [m c tt sc]; simpl. intros -> ->.
    unfold togglePowerZone; simpl.
    rewrite (proj2 (gt_false c c) (Qcle_refl c)).
    rewrite (proj2 (lt_false c c) (Qcle_refl c)). reflexivity.
Qed.

(** The left side of the mounted demo cools towards 68 from 72: two presses
    of the power button give the mounted demo back. *)
Lemma power_cycle_witness :
  togglePower Left (togglePower Left init) = init.
Proof.
  apply (proj1 (proj2 (proj2 (power_cycle Left init))) (Num.ofZ 68));
    [reflexivity|].
  right; right. split; [reflexivity|].
  unfold Qclt, Qlt; simpl; lia.
Defined.

(** X11: a press of plus or minus, by whatever amount, never switches power
    and never touches the current temperature or the schedule: a zone that
    is off stays off (but gets the new target all the same), and a zone that
    is on stays on, heating when the new target is above the current
    temperature, cooling when it is below, and keeping its mode when the two
    are equal. *)
Theorem changeTemp_keeps_power :
  forall (side : Side) (delta : number) (st : DemoState),
    let z := zone_at (st_zones st) side in
    let z' := zone_at (st_zones (changeTemp side delta st)) side in
    (mode z' = "off" <-> mode z = "off") /\
    currentTemp z' = currentTemp z /\
    schedule z' = schedule z /\
    exists t, targetTemp z' = Some t /\
      (mode z <> "off" ->
       (currentTemp z < t -> mode z' = "heat") /\
       (t < currentTemp z -> mode z' = "cool") /\
       (t = currentTemp z -> mode z' = mode z)).
Proof.
  intros side delta st z z'. subst z'. unfold changeTemp.
  rewrite updateZone_same. fold z. unfold changeTempZone.
  cbn [mode currentTemp schedule targetTemp].
  set (nextF := fromUnit (st_unit st) _).
  destruct (mode z =? "off") eqn:E.
  - apply String.eqb_eq in E.
    split; [tauto|]. split; [reflexivity|]. split; [reflexivity|].
    exists nextF. split; [reflexivity|]. intro H. contradiction.
  - apply String.eqb_neq in E.
    split.
    { split; [|contradiction].
      destruct (Num.gt _ _); [discriminate|].
      destruct (Num.lt _ _); [discriminate | intro; contradiction]. }
    split; [reflexivity|]. split; [reflexivity|].
    exists nextF. split; [reflexivity|]. intros _.
    destruct (Num.gt nextF (currentTemp z)) eqn:G.
    + apply gt_true in G. split; [reflexivity|]. split.
      * intro L. exfalso. exact (Qclt_not_le _ _ G (Qclt_le_weak _ _ L)).
      * intro Heq. rewrite Heq in G.
        exfalso. exact (Qclt_not_eq _ _ G eq_refl).
    + apply gt_false in G.
      destruct (Num.lt nextF (currentTemp z)) eqn:L.
      * apply lt_true in L. split; [|split; [reflexivity|]].
        -- intro H. exfalso. exact (Qclt_not_le _ _ H G).
        -- intro Heq. rewrite Heq in L.
           exfalso. exact (Qclt_not_eq _ _ L eq_refl).
      * apply lt_false in L. split; [|split; [|reflexivity]].
        -- intro H. exfalso. exact (Qclt_not_le _ _ H G).
        -- intro H. exfalso. exact (Qclt_not_le _ _ H L).
Qed.

(** The right side of the mounted demo is off: a press of plus leaves it
    off. *)
Lemma changeTemp_keeps_power_witness :
  mode (zone_at (st_zones (changeTemp Right (Num.ofZ 1) init)) Right) = "off".
Proof.
  apply (proj1 (changeTemp_keeps_power Right (Num.ofZ 1) init)).
  reflexivity.
Defined.

(** ** The readout moves on a grid *)

(** An order between two numbers given in closed form. *)
Ltac by_order :=
  unfold Qcle, Qclt, Qle, Qlt; vm_compute; (reflexivity || discriminate).

Lemma Qc_plus_Q (x y : Qc) : ((x + y)%Qc : Q) == (x : Q) + (y : Q).
Proof. unfold Qcplus, Q2Qc, this. apply Qred_correct. Qed.

Lemma ofZ_plus (a b : Z) : Num.ofZ (a + b) = Num.ofZ a + Num.ofZ b.
Proof.
  apply Qc_is_canon. rewrite Qc_plus_Q, !ofZ_Q, inject_Z_plus. reflexivity.
Qed.

Lemma round_ofZ (k : Z) : Num.round (Num.ofZ k) = Num.ofZ k.
Proof.
  unfold Num.round. f_equal. rewrite ofZ_Q.
  assert (Hlo : (k <= Qfloor (inject_Z k + (1 # 2)))%Z).
  { rewrite <- (Qfloor_Z k) at 1. apply Qfloor_resp_le. lra. }
  assert (Hhi : (Qfloor (inject_Z k + (1 # 2)) < k + 1)%Z).
  { rewrite Zlt_Qlt.
    apply Qle_lt_trans with (y := (inject_Z k + (1 # 2))%Q);
      [apply Qfloor_le|].
    rewrite inject_Z_plus. change (inject_Z 1) with 1%Q. lra. }
  lia.
Qed.

Lemma div_ofZ_1 (x : Qc) : (x / Num.ofZ 1 = x)%Qc.
Proof.
  change (Num.ofZ 1) with 1%Qc. field. exact Q_apart_0_1.
Qed.

Lemma div_mul_ofZ_10 (x : Qc) : (x / Num.ofZ 10 * Num.ofZ 10 = x)%Qc.
Proof.
  pose proof (ofZ_nonzero 10 ltac:(lia)) as H10. field. exact H10.
Qed.

Lemma grid_den_nonzero (u : Unit) : Num.ofZ (grid_den u) <> 0.
Proof. apply ofZ_nonzero. destruct u; simpl; lia. Qed.

Lemma grid_sum (u : Unit) (x y : number) :
  on_grid u x -> on_grid u y -> on_grid u (x + y).
Proof.
  intros [a ->] [b ->]. exists (a + b)%Z. rewrite ofZ_plus.
  pose proof (grid_den_nonzero u) as Hd.
  unfold Num.number. field. exact Hd.
Qed.

Lemma toUnit_on_grid (u : Unit) (t : number) : on_grid u (toUnit u t).
Proof.
  destruct u; unfold toUnit, on_grid, grid_den, Num.round.
  - eexists. rewrite div_ofZ_1. reflexivity.
  - eexists. reflexivity.
Qed.

Lemma press_on_grid (u : Unit) (delta : number) :
  is_press u delta -> on_grid u delta.
Proof.
  intros [-> | ->]; destruct u; cbn [tempCfg cfg_step grid_den].
  - exists 1%Z. by_value.
  - exists 5%Z. by_value.
  - exists (-1)%Z. by_value.
  - exists (-5)%Z. by_value.
Qed.

Lemma clamp_cases (u : Unit) (x : number) :
  clamp u x = x \/ clamp u x = cfg_min (tempCfg u)
  \/ clamp u x = cfg_max (tempCfg u).
Proof.
  unfold clamp, Num.min, Num.max.
  destruct (Num.lt (cfg_min (tempCfg u)) x);
    destruct (Num.lt _ (cfg_max (tempCfg u))); auto.
Qed.

Lemma bounds_on_grid (u : Unit) :
  on_grid u (cfg_min (tempCfg u)) /\ on_grid u (cfg_max (tempCfg u)).
Proof.
  destruct u; cbn [tempCfg cfg_min cfg_max]; split.
  - exists 55%Z. by_value.
  - exists 110%Z. by_value.
  - exists 130%Z. by_value.
  - exists 435%Z. by_value.
Qed.

Lemma clamp_on_grid (u : Unit) (x : number) :
  on_grid u x -> on_grid u (clamp u x).
Proof.
  intro Hx. destruct (bounds_on_grid u) as [Hlo Hhi].
  destruct (clamp_cases u x) as [-> | [-> | ->]]; assumption.
Qed.

Lemma grid_roundtrip (u : Unit) (x : number) :
  on_grid u x -> toUnit u (fromUnit u x) = x.
Proof.
  intros [k ->]. destruct u; cbn [grid_den].
  - unfold toUnit, fromUnit.
    rewrite div_ofZ_1. apply round_ofZ.
  - rewrite toUnit_fromUnit_C.
    rewrite div_mul_ofZ_10, round_ofZ. reflexivity.
Qed.

Lemma press_exact (u : Unit) (delta : number) (z : ZoneState) :
  is_press u delta ->
  shownTarget u (changeTempZone u delta z)
  = clamp u (shownTarget u z + delta).
Proof.
  intro Hd. rewrite shownTarget_changeTempZone. fold (clamp u (shownTarget u z + delta)).
  apply grid_roundtrip, clamp_on_grid, grid_sum.
  - apply toUnit_on_grid.
  - apply press_on_grid, Hd.
Qed.

(** X12: a press of plus or minus moves the readout by exactly one step of
    the unit on display (1 under F, 0.5 under C), cut off at the bounds of
    that unit; and what the zone then stores as target is the new readout
    converted back to Fahrenheit, so nothing is lost between what is shown
    and what is kept. *)
Theorem press_moves_one_step :
  forall (u : Unit) (delta : number) (z : ZoneState),
    is_press u delta ->
    let z' := changeTempZone u delta z in
    shownTarget u z'
    = Num.min (cfg_max (tempCfg u))
        (Num.max (cfg_min (tempCfg u)) (shownTarget u z + delta)) /\
    targetTemp z' = Some (fromUnit u (shownTarget u z')).
Proof.
  intros u delta z Hd z'. subst z'.
  pose proof (press_exact u delta z Hd) as H.
  split; [exact H|].
  rewrite H. reflexivity.
Qed.

(** The left side of the mounted demo shows 68; a press of plus shows 69. *)
Lemma press_moves_one_step_witness :
  shownTarget F (changeTempZone F (Num.ofZ 1) (z_left (st_zones init)))
  = Num.min (Num.ofZ 110)
      (Num.max (Num.ofZ 55)
         (shownTarget F (z_left (st_zones init)) + Num.ofZ 1)).
Proof.
  apply (proj1 (press_moves_one_step F (Num.ofZ 1) (z_left (st_zones init))
                  (or_introl eq_refl))).
Defined.

Lemma cfg_min_le_max (u : Unit) : cfg_min (tempCfg u) <= cfg_max (tempCfg u).
Proof. destruct u; by_order. Qed.

Lemma clamp_id (u : Unit) (x : number) : in_range u x -> clamp u x = x.
Proof.
  intros [Hlo Hhi]. unfold clamp, Num.min, Num.max.
  destruct (Num.lt (cfg_min (tempCfg u)) x) eqn:E1.
  - destruct (Num.lt x (cfg_max (tempCfg u))) eqn:E2; [reflexivity|].
    apply lt_false in E2. apply Qcle_antisym; assumption.
  - apply lt_false in E1.
    assert (x = cfg_min (tempCfg u)) as -> by (apply Qcle_antisym; assumption).
    destruct (Num.lt _ (cfg_max (tempCfg u))) eqn:E2; [reflexivity|].
    apply lt_false in E2. apply Qcle_antisym; assumption.
Qed.

Lemma clamp_high (u : Unit) (x : number) :
  cfg_max (tempCfg u) <= x -> clamp u x = cfg_max (tempCfg u).
Proof.
  intro H. pose proof (cfg_min_le_max u) as Hc.
  unfold clamp, Num.min, Num.max.
  destruct (Num.lt (cfg_min (tempCfg u)) x) eqn:E1.
  - destruct (Num.lt x (cfg_max (tempCfg u))) eqn:E2; [|reflexivity].
    apply lt_true in E2. exfalso. exact (Qclt_not_le _ _ E2 H).
  - apply lt_false in E1.
    destruct (Num.lt _ (cfg_max (tempCfg u))) eqn:E2; [|reflexivity].
    apply lt_true in E2. exfalso.
    exact (Qclt_not_le _ _ E2 (Qcle_trans _ _ _ H E1)).
Qed.

Lemma clamp_low (u : Unit) (x : number) :
  x <= cfg_min (tempCfg u) -> clamp u x = cfg_min (tempCfg u).
Proof.
  intro H. pose proof (cfg_min_le_max u) as Hc.
  unfold clamp, Num.min, Num.max.
  destruct (Num.lt (cfg_min (tempCfg u)) x) eqn:E1.
  - apply lt_true in E1. exfalso. exact (Qclt_not_le _ _ E1 H).
  - destruct (Num.lt _ (cfg_max (tempCfg u))) eqn:E2; [reflexivity|].
    apply lt_false in E2. apply Qcle_antisym; assumption.
Qed.

Lemma step_up (u : Unit) (x : Qc) : x <= x + cfg_step (tempCfg u).
Proof.
  unfold Qcle. rewrite Qc_plus_Q.
  destruct u; cbn [tempCfg cfg_step].
  - change (this (Num.ofZ 1)) with 1%Q. lra.
  - change (this Num.half) with (1 # 2)%Q. lra.
Qed.

Lemma step_down (u : Unit) (x : Qc) : x + - cfg_step (tempCfg u) <= x.
Proof.
  unfold Qcle. rewrite Qc_plus_Q.
  destruct u; cbn [tempCfg cfg_step].
  - change (this (- Num.ofZ 1)) with (- (1))%Q. lra.
  - change (this (- Num.half)) with (- (1 # 2))%Q. lra.
Qed.

Lemma plus_minus_cancel (x s : Qc) : (x + s + - s = x)%Qc.
Proof. ring. Qed.

Lemma minus_plus_cancel (x s : Qc) : (x + - s + s = x)%Qc.
Proof. ring. Qed.

(** X13: plus and minus undo each other away from the bounds, and do nothing
    at them.  When the readout is in range and one step up does not pass the
    maximum, plus then minus gives the readout back; likewise minus then
    plus when one step down does not pass the minimum.  When the readout is
    at or above the maximum a press of plus shows the maximum, and when it
    is at or below the minimum a press of minus shows the minimum. *)
Theorem presses_undo_and_saturate :
  forall (u : Unit) (z : ZoneState),
    let x := shownTarget u z in
    let s := cfg_step (tempCfg u) in
    (in_range u x -> x + s <= cfg_max (tempCfg u) ->
     shownTarget u (presses u [s; - s] z) = x) /\
    (in_range u x -> cfg_min (tempCfg u) <= x + - s ->
     shownTarget u (presses u [- s; s] z) = x) /\
    (cfg_max (tempCfg u) <= x ->
     shownTarget u (changeTempZone u s z) = cfg_max (tempCfg u)) /\
    (x <= cfg_min (tempCfg u) ->
     shownTarget u (changeTempZone u (- s) z) = cfg_min (tempCfg u)).
Proof.
  intros u z x s.
  assert (Hp : is_press u s) by (left; reflexivity).
  assert (Hm : is_press u (- s)) by (right; reflexivity).
  split; [|split; [|split]].
  - intros [Hlo Hhi] Hs. unfold presses; cbn [fold_left].
    rewrite (press_exact u (- s) _ Hm), (press_exact u s z Hp). fold x.
    rewrite (clamp_id u (x + s)).
    + rewrite plus_minus_cancel. apply clamp_id. split; assumption.
    + split; [|exact Hs].
      exact (Qcle_trans _ _ _ Hlo (step_up u x)).
  - intros [Hlo Hhi] Hs. unfold presses; cbn [fold_left].
    rewrite (press_exact u s _ Hp), (press_exact u (- s) z Hm). fold x.
    rewrite (clamp_id u (x + - s)).
    + rewrite minus_plus_cancel. apply clamp_id. split; assumption.
    + split; [exact Hs|].
      exact (Qcle_trans _ _ _ (step_down u x) Hhi).
  - intro H. rewrite (press_exact u s z Hp). fold x.
    apply clamp_high. exact (Qcle_trans _ _ _ H (step_up u x)).
  - intro H. rewrite (press_exact u (- s) z Hm). fold x.
    apply clamp_low. exact (Qcle_trans _ _ _ (step_down u x) H).
Qed.

(** The left side of the mounted demo shows 68 under F: plus and then minus
    show 68 again. *)
Lemma presses_undo_and_saturate_witness :
  shownTarget F (presses F [Num.ofZ 1; - Num.ofZ 1] (z_left (st_zones init)))
  = shownTarget F (z_left (st_zones init)).
Proof.
  apply (proj1 (presses_undo_and_saturate F (z_left (st_zones init)))).
  - split; by_order.
  - by_order.
Defined.

(** ** Selection and highlight in the widget *)

Lemma BedDualZone_buttons alpha (A : Type) theme (props : BedDualZoneProps A) :
  exists nl nr,
    r_zones (BedDualZone alpha theme props)
    = [ zoneView alpha theme props (nullish (p_unit props) F) Left
          (p_left props) nl;
        zoneView alpha theme props (nullish (p_unit props) F) Right
          (p_right props) nr ].
Proof. eexists. eexists. reflexivity. Qed.

(** X14: whatever the properties, the widget has one button per side, left
    first, and the two are never pressed together.  A button is pressed
    exactly when its side is the selected one, carries the editing ring
    exactly when it is pressed, and is dimmed to 0.6 exactly when the other
    button is pressed; with no selection neither is pressed or dimmed. *)
Theorem highlight_follows_selection :
  forall alpha (A : Type) theme (props : BedDualZoneProps A),
  exists l r,
    r_zones (BedDualZone alpha theme props) = [l; r] /\
    v_key l = Left /\ v_key r = Right /\
    (v_pressed l = true <-> p_editingSide props = Some Left) /\
    (v_pressed r = true <-> p_editingSide props = Some Right) /\
    ~ (v_pressed l = true /\ v_pressed r = true) /\
    (v_editingSx l <> None <-> v_pressed l = true) /\
    (v_editingSx r <> None <-> v_pressed r = true) /\
    (v_opacity l = Q2Qc (6 # 10) <-> v_pressed r = true) /\
    (v_opacity r = Q2Qc (6 # 10) <-> v_pressed l = true) /\
    (v_pressed r = false -> v_opacity l = Num.ofZ 1) /\
    (v_pressed l = false -> v_opacity r = Num.ofZ 1).
Proof.
  intros alpha A theme props.
  destruct (BedDualZone_buttons alpha A theme props) as [nl [nr ->]].
  eexists. eexists. split; [reflexivity|].
  unfold zoneView;
    cbn [v_key v_pressed v_editingSx v_opacity].
  destruct (p_editingSide props) as [[|]|]; cbn [Side_eqb negb];
    repeat split; intros; try congruence; try discriminate;
    try (destruct H; discriminate);
    try (intros [? ?]; discriminate).
Qed.

(** On [propsA] the right side is selected: the left button is dimmed. *)
Lemma highlight_follows_selection_witness :
  map v_opacity (r_zones (BedDualZone sampleAlpha sampleTheme propsA))
  = [Q2Qc (6 # 10); Num.ofZ 1].
Proof.
  destruct (highlight_follows_selection sampleAlpha Side sampleTheme propsA)
    as [l [r [E [_ [_ [_ [Hr [_ [_ [_ [Hl [_ [_ Hr1]]]]]]]]]]]]].
  rewrite E. cbn [map].
  assert (Pr : v_pressed r = true) by (apply Hr; reflexivity).
  assert (Pl : v_pressed l = false).
  { vm_compute in E. injection E as <- _. reflexivity. }
  rewrite (proj2 Hl Pr), (Hr1 Pl). reflexivity.
Defined.

(** ** The tint of a zone *)

Lemma entry_modeStyles alpha theme (m : string) :
  (entry m (modeStyles alpha theme) = None <-> ~ valid_mode m) /\
  (valid_mode m ->
   exists ms, entry m (modeStyles alpha theme) = Some (m, ms) /\
              ms_dot ms = (if m =? "cool" then info_main theme
                           else if m =? "heat" then error_main theme
                           else grey_400 theme)).
Proof.
  unfold modeStyles, entry, valid_mode, Modes.
  destruct ("cool" =? m) eqn:Ec; [|destruct ("heat" =? m) eqn:Eh;
                                   [|destruct ("off" =? m) eqn:Eo]].
  - apply String.eqb_eq in Ec. subst m. split.
    + split; [discriminate|]. intro H. exfalso. apply H. simpl; auto.
    + intros _. eexists. split; reflexivity.
  - apply String.eqb_eq in Eh. subst m. split.
    + split; [discriminate|]. intro H. exfalso. apply H. simpl; auto.
    + intros _. eexists. split; reflexivity.
  - apply String.eqb_eq in Eo. subst m. split.
    + split; [discriminate|]. intro H. exfalso. apply H. simpl; auto.
    + intros _. eexists. split; reflexivity.
  - apply String.eqb_neq in Ec, Eh, Eo. split.
    + split; [|reflexivity]. intros _ H. simpl in H.
      destruct H as [H | [H | [H | []]]]; congruence.
    + intro H. simpl in H. destruct H as [H | [H | [H | []]]]; congruence.
Qed.

(** X15: a zone gets a style from [modeStyles] exactly when its mode is one
    of off, cool and heat: any other mode string finds no entry, and the
    button is rendered with no tint at all.  For the three modes the entry
    found is the one of that mode, with the dot in the theme's info colour
    for cool, its error colour for heat and grey 400 for off.  In every
    state the demo can reach both buttons have their style. *)
Theorem tint_only_for_modes :
  forall alpha theme,
    (forall (A : Type) (props : BedDualZoneProps A) (s : Side),
      exists v,
        zoneButton (BedDualZone alpha theme props) s = Some v /\
        let m := mode (stateOf props s) in
        (v_modeStyle v = None <-> ~ valid_mode m) /\
        (valid_mode m ->
         exists ms, v_modeStyle v = Some (m, ms) /\
           ms_dot ms = (if m =? "cool" then info_main theme
                        else if m =? "heat" then error_main theme
                        else grey_400 theme))) /\
    (forall st : DemoState,
        reachable alpha theme st ->
        forall s, exists v ms,
          zoneButton (demoWidget alpha theme st) s = Some v /\
          v_modeStyle v = Some (mode (zone_at (st_zones st) s), ms)).
Proof.
  intros alpha theme. split.
  - intros A props s.
    destruct (zoneButton_BedDualZone alpha A theme props s) as [name ->].
    eexists. split; [reflexivity|].
    unfold zoneView; cbn [v_modeStyle]. apply entry_modeStyles.
  - intros st Hr s. unfold demoWidget.
    destruct (zoneButton_BedDualZone alpha _ theme (demoProps st) s)
      as [name ->].
    pose proof (reachable_modes_ok alpha theme st Hr s) as Hm.
    replace (stateOf (demoProps st) s) with (zone_at (st_zones st) s)
      by (destruct s; reflexivity).
    destruct (proj2 (entry_modeStyles alpha theme _) Hm) as [ms [E _]].
    eexists. exists ms. split; [reflexivity|].
    unfold zoneView; cbn [v_modeStyle]. exact E.
Qed.

(** The left side of the mounted demo cools: its dot has the info colour. *)
Lemma tint_only_for_modes_witness :
  exists v ms,
    zoneButton (demoWidget sampleAlpha sampleTheme init) Left = Some v /\
    v_modeStyle v = Some ("cool", ms).
Proof.
  exact (proj2 (tint_only_for_modes sampleAlpha sampleTheme) init
           (reach_init _ _) Left).
Defined.

(** ** Names, tabs and the page title *)

(** X16: what is typed into a name field is what the widget shows on that
    side, the empty string included (the default name does not come back),
    and it opens the aria label of that side; the other name, the zones, the
    selection, the unit and the page are left alone. *)
Theorem rename_shows_in_widget :
  forall alpha theme (st : DemoState) (v : string),
    let stl := handle alpha theme (LeftName v) st in
    let str := handle alpha theme (RightName v) st in
    map v_name (r_zones (demoWidget alpha theme stl))
    = [v; n_right (st_sideNames st)] /\
    map v_name (r_zones (demoWidget alpha theme str))
    = [n_left (st_sideNames st); v] /\
    (exists rest,
        option_map v_ariaLabel (zoneButton (demoWidget alpha theme stl) Left)
        = Some (v ++ " side: " ++ rest)) /\
    (exists rest,
        option_map v_ariaLabel (zoneButton (demoWidget alpha theme str) Right)
        = Some (v ++ " side: " ++ rest)) /\
    (st_zones stl, st_editing stl, st_unit stl, st_page stl)
    = (st_zones st, st_editing st, st_unit st, st_page st) /\
    (st_zones str, st_editing str, st_unit str, st_page str)
    = (st_zones st, st_editing st, st_unit st, st_page st).
Proof.
  intros alpha theme st v stl str. subst stl str.
  repeat split; try (eexists; reflexivity).
Qed.

(** X17: a tab and a click on a zone select the same way: the tab of side
    [s] leaves the demo in the state a click on the zone of [s] does, a tab
    event without value changes nothing, and of two selections in a row only
    the second counts. *)
Theorem tab_is_zone_click :
  forall alpha theme (st : DemoState) (s s' : Side),
    handle alpha theme (TabChange (Some s)) st
    = handle alpha theme (ZoneClick s) st /\
    handle alpha theme (TabChange None) st = st /\
    handle alpha theme (ZoneClick s) (handle alpha theme (TabChange (Some s')) st)
    = handle alpha theme (ZoneClick s) st.
Proof.
  intros alpha theme st s s'.
  assert (H : forall x t, handle alpha theme (ZoneClick x) t = setEditing x t).
  { intros x t. cbn [handle]. unfold demoWidget.
    rewrite click_BedDualZone. reflexivity. }
  rewrite !H. repeat split.
Qed.

Lemma pageTitle_nav alpha theme (a : NavAction) (st : DemoState) :
  pageTitle (handle alpha theme (NavClick a) st) = nav_label a.
Proof. destruct a; reflexivity. Qed.

(** X18: the title on top of the page is the label of the navigation action
    last clicked, and in every state the demo can reach it names the page on
    screen: Home on home, Settings on settings, Schedule on schedule. *)
Theorem title_names_the_page :
  forall alpha theme,
    (forall (a : NavAction) (st : DemoState),
        pageTitle (handle alpha theme (NavClick a) st) = nav_label a) /\
    (forall st : DemoState,
        reachable alpha theme st ->
        In (st_page st, pageTitle st)
           [("home", "Home"); ("settings", "Settings");
            ("schedule", "Schedule")]).
Proof.
  intros alpha theme. split; [intros; apply pageTitle_nav|].
  intros st Hr. pose proof (reachable_page alpha theme st Hr) as Hp.
  unfold pageTitle. simpl in Hp.
  destruct Hp as [Hp | [Hp | [Hp | []]]]; rewrite <- Hp; simpl; auto.
Qed.

(** After a click on Schedule the title reads Schedule. *)
Lemma title_names_the_page_witness :
  In (st_page (handle sampleAlpha sampleTheme (NavClick NavSchedule) init),
      pageTitle (handle sampleAlpha sampleTheme (NavClick NavSchedule) init))
     [("home", "Home"); ("settings", "Settings"); ("schedule", "Schedule")].
Proof.
  apply (proj2 (title_names_the_page sampleAlpha sampleTheme)).
  apply (reach_step _ _ init (NavClick NavSchedule));
    [apply reach_init | reflexivity].
Defined.

(** ** How close and how ordered the shown numbers are *)

Lemma round_near (x : number) :
  ((x : Q) - (1 # 2) < (Num.round x : Q))%Q /\
  ((Num.round x : Q) <= (x : Q) + (1 # 2))%Q.
Proof.
  unfold Num.round. rewrite ofZ_Q.
  pose proof (Qfloor_le ((x : Q) + (1 # 2))) as Hle.
  pose proof (Qlt_floor ((x : Q) + (1 # 2))) as Hlt.
  rewrite inject_Z_plus in Hlt. change (inject_Z 1) with 1%Q in Hlt.
  split; lra.
Qed.

Lemma round_mono (x y : number) : x <= y -> Num.round x <= Num.round y.
Proof.
  unfold Qcle, Num.round. intro H. rewrite !ofZ_Q, <- Zle_Qle.
  apply Qfloor_resp_le. lra.
Qed.

Lemma fToC_Q (t : number) :
  (fToC t : Q) == (((t : Q) - 32) * 5 / 9)%Q.
Proof.
  unfold fToC, Qcminus.
  rewrite Qc_div_Q, Qc_mult_Q, Qc_plus_Q.
  change (this (- Num.ofZ 32)) with (- (32))%Q.
  change (this (Num.ofZ 5)) with 5%Q.
  change (this (Num.ofZ 9)) with 9%Q.
  field.
Qed.

Lemma cToF_Q (c : number) :
  (cToF c : Q) == ((c : Q) * 9 / 5 + 32)%Q.
Proof.
  unfold cToF.
  rewrite Qc_plus_Q, Qc_div_Q, Qc_mult_Q.
  change (this (Num.ofZ 32)) with 32%Q.
  change (this (Num.ofZ 5)) with 5%Q.
  change (this (Num.ofZ 9)) with 9%Q.
  reflexivity.
Qed.

Lemma fToC_mono (a b : number) : a <= b -> fToC a <= fToC b.
Proof.
  unfold Qcle. intro H. rewrite !fToC_Q.
  unfold Qdiv. apply Qmult_le_compat_r; [lra | discriminate].
Qed.

Lemma cToF_mono (a b : number) : a <= b -> cToF a <= cToF b.
Proof.
  unfold Qcle. intro H. rewrite !cToF_Q.
  apply Qplus_le_l.
  unfold Qdiv. apply Qmult_le_compat_r; [lra | discriminate].
Qed.

(** X19: how far a shown number can be from the exact one.  Under F the
    readout is within half a degree of the stored temperature; under C it is
    within a twentieth of a degree of the exact conversion, while the widget,
    which rounds to whole degrees, is within half a degree of it; the lower
    bound is strict, a tie going up. *)
Theorem shown_numbers_are_close :
  forall t : number,
    (t - Num.half < toUnit F t /\ toUnit F t <= t + Num.half) /\
    (fToC t - Q2Qc (1 # 20) < toUnit C t /\
     toUnit C t <= fToC t + Q2Qc (1 # 20)) /\
    (fToC t - Num.half < formatTemp C t /\
     formatTemp C t <= fToC t + Num.half) /\
    formatTemp F t = toUnit F t.
Proof.
  intro t. split; [|split; [|split; [|reflexivity]]].
  - destruct (round_near t) as [Hlo Hhi].
    unfold toUnit, Qclt, Qcle, Qcminus. rewrite !Qc_plus_Q.
    change (this (- Num.half)) with (- (1 # 2))%Q.
    change (this Num.half) with (1 # 2)%Q.
    split; lra.
  - destruct (round_near (fToC t * Num.ofZ 10)) as [Hlo Hhi].
    rewrite Qc_mult_Q in Hlo, Hhi.
    change (this (Num.ofZ 10)) with 10%Q in Hlo, Hhi.
    unfold toUnit, Qclt, Qcle, Qcminus. rewrite !Qc_plus_Q, Qc_div_Q.
    change (this (- Q2Qc (1 # 20))) with (- (1 # 20))%Q.
    change (this (Q2Qc (1 # 20))) with (1 # 20)%Q.
    change (this (Num.ofZ 10)) with 10%Q.
    split.
    + apply Qlt_shift_div_l; [reflexivity | lra].
    + apply Qle_shift_div_r; [reflexivity | lra].
  - destruct (round_near (fToC t)) as [Hlo Hhi].
    change (formatTemp C t) with (Num.round (fToC t)).
    unfold Qclt, Qcle, Qcminus. rewrite !Qc_plus_Q.
    change (this (- Num.half)) with (- (1 # 2))%Q.
    change (this Num.half) with (1 # 2)%Q.
    split; lra.
Qed.

Lemma toUnit_mono (u : Unit) (a b : number) :
  a <= b -> toUnit u a <= toUnit u b.
Proof.
  intro H. destruct u; unfold toUnit.
  - apply round_mono, H.
  - unfold Qcdiv. apply Qcmult_le_compat_r; [|by_order].
    apply round_mono. apply Qcmult_le_compat_r; [|by_order].
    apply fToC_mono, H.
Qed.

(** X20: the numbers shown keep the order of the temperatures: of two
    temperatures the higher never shows the lower number, in the readout
    ([toUnit]) or in the widget ([formatTemp]), under either unit, and the
    two conversions keep the order as well. *)
Theorem shown_numbers_keep_order :
  forall (u : Unit) (a b : number),
    a <= b ->
    toUnit u a <= toUnit u b /\
    formatTemp u a <= formatTemp u b /\
    fToC a <= fToC b /\
    cToF a <= cToF b.
Proof.
  intros u a b H.
  split; [apply toUnit_mono, H|].
  split; [|split; [apply fToC_mono, H | apply cToF_mono, H]].
  destruct u.
  - apply round_mono, H.
  - change (formatTemp C a) with (Num.round (fToC a)).
    change (formatTemp C b) with (Num.round (fToC b)).
    apply round_mono, fToC_mono, H.
Qed.

(** 68 and 72 degrees Fahrenheit under C. *)
Lemma shown_numbers_keep_order_witness :
  toUnit C (Num.ofZ 68) <= toUnit C (Num.ofZ 72).
Proof.
  apply (proj1 (shown_numbers_keep_order C (Num.ofZ 68) (Num.ofZ 72)
                  ltac:(unfold Qcle, Qle; simpl; lia))).
Defined.

(** ** Independent zones, end to end *)

(** X21: an edit of one side changes nothing in the button the widget draws
    for the other side: after any of the four operations on a side, the
    button of the opposite side (labels, temperatures, tint, highlight,
    click handler) is the one that was drawn before. *)
Theorem edit_leaves_other_button :
  forall alpha theme (op : SideOp) (s : Side) (st : DemoState),
    zoneButton (demoWidget alpha theme (apply_op op s st)) (other s)
    = zoneButton (demoWidget alpha theme st) (other s).
Proof.
  intros alpha theme op s st.
  destruct (apply_op_updateZone op s st) as [f ->].
  destruct s; reflexivity.
Qed.

(** ** The power button and the readout of the edited side *)

Lemma togglePowerZone_off (z : ZoneState) :
  (mode (togglePowerZone z) =? "off") = negb (mode z =? "off").
Proof.
  unfold togglePowerZone. destruct (mode z =? "off"); cbn [mode negb].
  - destruct (Num.gt _ _); [|destruct (Num.lt _ _)]; reflexivity.
  - reflexivity.
Qed.

Lemma changeTempZone_off (u : Unit) (delta : number) (z : ZoneState) :
  (mode (changeTempZone u delta z) =? "off") = (mode z =? "off").
Proof.
  unfold changeTempZone; cbn [mode].
  destruct (mode z =? "off") eqn:E; [exact E|].
  destruct (Num.gt _ _); [reflexivity|].
  destruct (Num.lt _ _); [reflexivity | exact E].
Qed.

(** X22: the power button changes colour at every press of it, between
    default for a zone that is off and secondary for one that is on, and a
    press of plus or minus never changes it. *)
Theorem power_button_colour :
  forall alpha theme (st : DemoState),
    powerColor (handle alpha theme PowerClick st)
    = (if powerColor st =? "default" then "secondary" else "default") /\
    powerColor (handle alpha theme PlusClick st) = powerColor st /\
    powerColor (handle alpha theme MinusClick st) = powerColor st.
Proof.
  intros alpha theme st. unfold powerColor; cbn [handle].
  unfold togglePower, changeTemp.
  rewrite !editedZone_updateZone, togglePowerZone_off, !changeTempZone_off.
  destruct (mode (editedZone st) =? "off"); repeat split.
Qed.

(** X23: what the buttons do to the readout of the edited side.  Plus and
    minus move it by one step of the unit on display, cut off at the bounds.
    The power button leaves it alone, except on a zone that is off and has
    no target: there the readout showed the unit's mid value, and after the
    press it shows the zone's current temperature, which has become the
    target. *)
Theorem readout_under_buttons :
  forall alpha theme (st : DemoState),
    let u := st_unit st in
    let z := editedZone st in
    readout (handle alpha theme PlusClick st)
    = clamp u (readout st + cfg_step (tempCfg u)) /\
    readout (handle alpha theme MinusClick st)
    = clamp u (readout st + - cfg_step (tempCfg u)) /\
    (targetTemp z <> None \/ mode z <> "off" ->
     readout (handle alpha theme PowerClick st) = readout st) /\
    (targetTemp z = None -> mode z = "off" ->
     readout st = cfg_mid (tempCfg u) /\
     readout (handle alpha theme PowerClick st) = toUnit u (currentTemp z)).
Proof.
  intros alpha theme st u z. unfold readout; cbn [handle].
  unfold togglePower, changeTemp.
  change (st_unit (updateZone (st_editing st) ?f st)) with (st_unit st).
  rewrite !editedZone_updateZone. fold u z.
  split; [apply press_exact; left; reflexivity|].
  split; [apply press_exact; right; reflexivity|].
  split.
  - intro H. unfold shownTarget, togglePowerZone.
    destruct (mode z =? "off") eqn:E; cbn [targetTemp]; [|reflexivity].
    apply String.eqb_eq in E.
    destruct (targetTemp z) as [t|]; [reflexivity|].
    destruct H as [H | H]; contradiction.
  - intros Ht Hm. split; [apply shownTarget_absent, Ht|].
    unfold shownTarget, togglePowerZone. rewrite Hm, Ht. reflexivity.
Qed.

(** The right side of the mounted demo is off without target: its readout
    is 82, and 70 after a press of the power button. *)
Lemma readout_under_buttons_witness :
  readout (setEditing Right init) = Num.ofZ 82 /\
  readout (handle sampleAlpha sampleTheme PowerClick (setEditing Right init))
  = toUnit F (Num.ofZ 70).
Proof.
  apply (proj2 (proj2 (proj2
           (readout_under_buttons sampleAlpha sampleTheme
              (setEditing Right init)))));
    reflexivity.
Defined.
